(** * AIris-Cab front end: the cab and flight comparison workflows

    A shallow embedding of [frontend/src/App.tsx] and of
    [frontend/src/components/FlightComparison.tsx].

    - React state is a record; an event handler is a computation in a small
      state monad over a [World] (the component state, the log of network
      requests issued, the console log).  A handler reads the values its
      closure captured at render time and writes through the setters.
    - The backend is a black box: every [axios] call asks an oracle
      ([Backend]) for its outcome, success with data or a transport error.
    - JavaScript built-ins the handlers call ([String.prototype.match] on a
      regular-expression literal, [parseFloat], [parseInt], [toFixed],
      [replace], [slice], [startsWith]) are written out after ECMAScript.
    - A Number that holds a count (seconds, passengers) is a [Z]; a Number
      that takes part in real arithmetic (price, distance, rate) is an IEEE
      binary64 value, [spec_float] at precision 53. *)

From Stdlib Require Import ZArith List String Ascii Bool Lia DecimalString.
From Stdlib Require Import Floats.SpecFloat.
From Stdlib Require DecimalPos DecimalN.
Import ListNotations.

Open Scope string_scope.
Open Scope Z_scope.

(** ** JavaScript strings and built-ins *)

Module JS.

(** *** Strings

    A string is a sequence of code units; the model keeps the units below
    256, which covers every literal of the source. *)

Definition code (c : ascii) : Z := Z.of_N (N_of_ascii c).

Definition is_digit (c : ascii) : bool := (48 <=? code c) && (code c <=? 57).

Definition digit_value (c : ascii) : Z := code c - 48.

Definition in_range (lo hi c : ascii) : bool :=
  (code lo <=? code c) && (code c <=? code hi).

(** [s.length] *)
Definition length (s : string) : Z := Z.of_nat (String.length s).

(** [!s] on a string: only the empty string is falsy. *)
Definition falsy (s : string) : bool :=
  match s with EmptyString => true | String _ _ => false end.

(** [s.startsWith(p)] *)
Fixpoint startsWith (s p : string) {struct p} : bool :=
  match p, s with
  | EmptyString, _ => true
  | String _ _, EmptyString => false
  | String b p', String a s' => Ascii.eqb a b && startsWith s' p'
  end.

(** Drops the first [n] code units (all of them when [s] is shorter). *)
Fixpoint drop (n : nat) (s : string) : string :=
  match n, s with
  | O, _ => s
  | S _, EmptyString => EmptyString
  | S n', String _ s' => drop n' s'
  end.

(** [s.slice(1)] *)
Definition slice1 (s : string) : string := drop 1 s.

(** [s.replace(p, '')] with a string pattern [p]: the first occurrence of
    [p], scanning from the left, is removed; a string without [p] is
    returned as it is. *)
Fixpoint replace_first_empty (s p : string) : string :=
  if startsWith s p then drop (String.length p) s
  else match s with
       | EmptyString => EmptyString
       | String a s' => String a (replace_first_empty s' p)
       end.

(** *** Regular expressions

    The fragment of the pattern language the source uses, with the
    continuation-passing matcher of ECMAScript (22.2.2): a matcher takes the
    input left to read and a continuation, and answers whether the rest of
    the pattern can succeed.  [bol] says that nothing has been read yet,
    which is what [^] asserts. *)

Inductive regex : Type :=
| RBol                                   (* ^ *)
| REol                                   (* $ *)
| RChar (c : ascii)                      (* an escaped or plain character *)
| RRange (lo hi : ascii)                 (* [lo-hi] *)
| RDigit                                 (* \d *)
| RSeq (r1 r2 : regex)
| RRepeat (r : regex) (lo hi : nat).     (* r{lo,hi}, greedy *)

Definition cont : Type := bool -> string -> bool.

Definition match_class (p : ascii -> bool) (s : string) (k : cont) : bool :=
  match s with
  | EmptyString => false
  | String a s' => p a && k false s'
  end.

(** [r{lo,hi}]: [lo] compulsory iterations, then up to [hi - lo] optional
    ones, each tried before the continuation (greedy).  The atoms of this
    fragment read one character, so no iteration is empty. *)
Fixpoint repeat_opt (m : cont -> cont) (n : nat) (k : cont) : cont :=
  fun bol s =>
    match n with
    | O => k bol s
    | S n' => m (repeat_opt m n' k) bol s || k bol s
    end.

Fixpoint repeat_min (m : cont -> cont) (n : nat) (k : cont) : cont :=
  match n with
  | O => k
  | S n' => m (repeat_min m n' k)
  end.

Fixpoint matcher (r : regex) (k : cont) : cont :=
  match r with
  | RBol => fun bol s => bol && k bol s
  | REol => fun bol s => falsy s && k bol s
  | RChar c => fun _ s => match_class (Ascii.eqb c) s k
  | RRange lo hi => fun _ s => match_class (in_range lo hi) s k
  | RDigit => fun _ s => match_class is_digit s k
  | RSeq r1 r2 => matcher r1 (matcher r2 k)
  | RRepeat r lo hi =>
      repeat_min (matcher r) lo (repeat_opt (matcher r) (hi - lo) k)
  end.

Definition accept : cont := fun _ _ => true.

(** The search of [RegExpBuiltinExec] without the global or sticky flag: the
    pattern is tried at index 0, then at every later index. *)
Fixpoint search_from (r : regex) (bol : bool) (s : string) : bool :=
  matcher r accept bol s ||
  match s with
  | EmptyString => false
  | String _ s' => search_from r false s'
  end.

(** [s.match(r)] is an array when the search succeeds and [null] when it
    fails; [!s.match(r)] is the negation of this test. *)
Definition matches (s : string) (r : regex) : bool := search_from r true s.

(** *** Numbers that are counts

    Seconds and passenger counts are integer-valued Numbers, modelled as
    [Z]: on integers below 2^53 the operators used on them ([Math.floor] of
    a quotient, [%], [Math.min], [Math.max], comparison) are exact. *)

(** [Math.floor(a / b)] for a positive divisor. *)
Definition floor_div (a b : Z) : Z := a / b.

(** [a % b]: the remainder has the sign of the dividend. *)
Definition rem (a b : Z) : Z := Z.rem a b.

(** The decimal digits of a non-negative integer. *)
Definition digits_of (n : Z) : string :=
  NilZero.string_of_uint (N.to_uint (Z.to_N n)).

(** [Number::toString] on an integer below 10^21, as a template literal
    [`${n}`] renders it. *)
Definition int_toString (n : Z) : string :=
  NilZero.string_of_int (Z.to_int n).

(** *** Scanning numerals *)

(** [TrimString(s, start)]: white space and line terminators among the code
    units below 256. *)
Definition is_white (c : ascii) : bool :=
  let n := code c in
  ((9 <=? n) && (n <=? 13)) || (n =? 32) || (n =? 160).

Fixpoint trim_start (s : string) : string :=
  match s with
  | String a s' => if is_white a then trim_start s' else s
  | EmptyString => EmptyString
  end.

(** The longest prefix of decimal digits, and what follows it. *)
Fixpoint span_digits (s : string) : string * string :=
  match s with
  | String a s' =>
      if is_digit a
      then let (d, r) := span_digits s' in (String a d, r)
      else (EmptyString, s)
  | EmptyString => (EmptyString, EmptyString)
  end.

Fixpoint digits_value_from (acc : Z) (s : string) : Z :=
  match s with
  | EmptyString => acc
  | String a s' => digits_value_from (10 * acc + digit_value a) s'
  end.

(** The mathematical value of a string of decimal digits. *)
Definition digits_value (s : string) : Z := digits_value_from 0 s.

Definition hex_digit (c : ascii) : option Z :=
  if is_digit c then Some (digit_value c)
  else if in_range "a" "f" c then Some (code c - 87)
  else if in_range "A" "F" c then Some (code c - 55)
  else None.

(** The value of the longest prefix of hexadecimal digits, [None] when that
    prefix is empty. *)
Fixpoint hex_prefix_from (acc : option Z) (s : string) : option Z :=
  match s with
  | String a s' =>
      match hex_digit a with
      | Some v =>
          hex_prefix_from
            (Some (16 * match acc with Some n => n | None => 0 end + v)) s'
      | None => acc
      end
  | EmptyString => acc
  end.

(** A leading [-] or [+] taken off: the sign, and what follows it. *)
Definition strip_sign (s : string) : Z * string :=
  match s with
  | String c r =>
      if Ascii.eqb c "-" then (-1, r)
      else if Ascii.eqb c "+" then (1, r)
      else (1, s)
  | EmptyString => (1, s)
  end.

(** [parseInt(s)] with no radix argument (19.2.5).  [None] is [NaN]; the
    value is the exact integer (a Number rounds it above 2^53, and [-0] is
    [0] here: both are the same to [||], [Math.min] and [Math.max] against
    small integers). *)
Definition parseInt (s : string) : option Z :=
  let t := trim_start s in
  let '(sign, t1) := strip_sign t in
  if startsWith t1 "0x" || startsWith t1 "0X"
  then option_map (Z.mul sign) (hex_prefix_from None (drop 2 t1))
  else
    let (d, _) := span_digits t1 in
    if falsy d then None else Some (sign * digits_value d).

(** [x || d] on a count: [NaN] and [0] are falsy. *)
Definition or_else (x : option Z) (d : Z) : Z :=
  match x with
  | None => d
  | Some v => if v =? 0 then d else v
  end.

(** *** Numbers that are reals: IEEE binary64 *)

Definition number : Type := spec_float.

Definition prec : Z := 53.
Definition emax : Z := 1024.

Definition NaN : number := S754_nan.
Definition Infinity : number := S754_infinity false.

(** [x / y] *)
Definition div (x y : number) : number := SFdiv prec emax x y.

(** The Number for an integer (round to nearest, ties to even). *)
Definition of_Z (n : Z) : number := binary_normalize prec emax n 0 false.

(** [RoundMVResult]: the Number nearest to [m * 10^e], for [m >= 0].  A
    negative power of ten is divided out with one correctly rounded
    division of the two exact integers. *)
Definition round_decimal (m e : Z) : number :=
  if m <=? 0 then S754_zero false
  else if 0 <=? e then of_Z (m * 10 ^ e)
  else div (S754_finite false (Z.to_pos m) 0)
           (S754_finite false (Z.to_pos (10 ^ (- e))) 0).

(** The value of an [ExponentPart] that begins [s], and [0] when none does
    (an [e] that no digit follows is not part of the numeral). *)
Definition exponent_part (s : string) : Z :=
  match s with
  | String c r =>
      if Ascii.eqb c "e" || Ascii.eqb c "E" then
        let '(sign, r') := strip_sign r in
        let (d, _) := span_digits r' in
        if falsy d then 0 else sign * digits_value d
      else 0
  | EmptyString => 0
  end.

(** The Number of the longest prefix that is a [StrUnsignedDecimalLiteral],
    [NaN] when there is none. *)
Definition unsigned_decimal (s : string) : number :=
  if startsWith s "Infinity" then Infinity
  else
    let (ip, r1) := span_digits s in
    if startsWith r1 "." then
      let (fp, r3) := span_digits (drop 1 r1) in
      if falsy ip && falsy fp then NaN
      else round_decimal (digits_value (ip ++ fp))
                         (exponent_part r3 - length fp)
    else
      if falsy ip then NaN
      else round_decimal (digits_value ip) (exponent_part r1).

(** [parseFloat(s)] (19.2.4) *)
Definition parseFloat (s : string) : number :=
  let t := trim_start s in
  let '(sign, r) := strip_sign t in
  if sign <? 0 then SFopp (unsigned_decimal r) else unsigned_decimal r.

(** *** Rendering a Number *)

Fixpoint zeros (n : nat) : string :=
  match n with
  | O => EmptyString
  | S n' => String "0" (zeros n')
  end.

(** Steps 10.b to 10.d of [Number.prototype.toFixed]: the digits of [n] with
    a point before the last [f] of them, after padding with zeros on the
    left up to [f + 1] digits. *)
Definition fixed_digits (n : Z) (f : nat) : string :=
  let m := digits_of n in
  match f with
  | O => m
  | S _ =>
      let m := if (String.length m <=? f)%nat
               then zeros (S f - String.length m) ++ m else m in
      let k := String.length m in
      substring 0 (k - f) m ++ "." ++ substring (k - f) f m
  end.

(** The integer [n] for which [n / 10^f - m * 2^e] is closest to zero, the
    larger one of two. *)
Definition nearest_scaled (m : positive) (e : Z) (f : nat) : Z :=
  let num := Zpos m * 10 ^ Z.of_nat f in
  if 0 <=? e then num * 2 ^ e
  else (2 * num + 2 ^ (- e)) / (2 * 2 ^ (- e)).

(** [10^21 <= m * 2^e] *)
Definition at_least_1e21 (m : positive) (e : Z) : bool :=
  if 0 <=? e then 10 ^ 21 <=? Zpos m * 2 ^ e
  else 10 ^ 21 * 2 ^ (- e) <=? Zpos m.

Fixpoint strip_trailing_zeros (s : string) : string :=
  match s with
  | EmptyString => EmptyString
  | String a s' =>
      match strip_trailing_zeros s' with
      | EmptyString => if Ascii.eqb a "0" then EmptyString else String a ""
      | r => String a r
      end
  end.

(** The search of [Number::toString] (6.1.6.1.20, step 5) for an integer [X]
    of [d] digits whose Number is [x]: the least number of digits [k] for
    which a multiple of [10^(d-k)] next to [X] rounds to [x], and of the two
    multiples the one nearer to [X] (the one with an even last digit when
    they are as near). *)
Fixpoint shortest_from (fuel : nat) (k : Z) (x : number) (X d : Z) : Z :=
  match fuel with
  | O => X
  | S fuel' =>
      let u := 10 ^ (d - k) in
      let lo := (X / u) * u in
      let hi := lo + u in
      let ok_lo := SFeqb (of_Z lo) x in
      let ok_hi := SFeqb (of_Z hi) x in
      if ok_lo && ok_hi then
        match (X - lo) ?= (hi - X) with
        | Lt => lo
        | Gt => hi
        | Eq => if Z.even (lo / u) then lo else hi
        end
      else if ok_lo then lo
      else if ok_hi then hi
      else shortest_from fuel' (k + 1) x X d
  end.

(** [Number::toString] on a finite Number at or above 10^21, which is an
    integer: the shortest digits, then the decimal exponent. *)
Definition toString_large (m : positive) (e : Z) : string :=
  let X := Zpos m * 2 ^ e in
  let d := length (digits_of X) in
  let v := shortest_from (Z.to_nat d) 1 (of_Z X) X d in
  let n := length (digits_of v) in
  let s := strip_trailing_zeros (digits_of v) in
  match s with
  | String a EmptyString => String a ("e+" ++ digits_of (n - 1))
  | String a r => String a ("." ++ r ++ "e+" ++ digits_of (n - 1))
  | EmptyString => EmptyString
  end.

(** [x.toFixed(f)] (21.1.3.3), for [f] from 0 to 100 (the source passes
    the literals 1 and 2). *)
Definition toFixed (x : number) (f : nat) : string :=
  match x with
  | S754_nan => "NaN"
  | S754_infinity false => "Infinity"
  | S754_infinity true => "-Infinity"
  | S754_zero _ => fixed_digits 0 f
  | S754_finite s m e =>
      (if s then "-" else "") ++
      (if at_least_1e21 m e then toString_large m e
       else fixed_digits (nearest_scaled m e f) f)
  end.

End JS.

(** ** Data exchanged with the backend *)

Module PriceEstimate.
Record t : Type := {
  service : string;
  price_estimate : string;
  duration : Z;
  distance : JS.number;
  pickup : string;
  dropoff : string;
  app_url : string;
  web_url : string;
  recommended : bool;
  capacity : string
}.
End PriceEstimate.

Module TrackedRoute.
Record t : Type := {
  id : Z;
  pickup : string;
  dropoff : string;
  passenger_count : Z;
  phone_number : string;
  target_price : JS.number;
  is_active : bool;
  created_at : string
}.
End TrackedRoute.

Module FlightEstimate.
Record t : Type := {
  airline : string;
  price : JS.number;
  departure : string;
  arrival : string;
  duration : Z;
  stops : Z;
  recommended : bool
}.
End FlightEstimate.

(** The body of [POST /track-route]. *)
Module TrackRouteBody.
Record t : Type := {
  pickup_address : string;
  dropoff_address : string;
  passenger_count : Z;
  phone_number : string;
  target_price : JS.number
}.
End TrackRouteBody.

(** The body of [POST /compare-prices]. *)
Module ComparePricesBody.
Record t : Type := {
  pickup_address : string;
  dropoff_address : string;
  passenger_count : Z
}.
End ComparePricesBody.

(** A request as [axios] sends it.  The constructor stands for the method
    and the path; its argument is the body, the path parameter
    ([encodeURIComponent] of it for a phone number) or the query. *)
Inductive Request : Type :=
| PostTrackRoute (body : TrackRouteBody.t)
| GetTrackedRoutes (formattedNumber : string)
| DeleteTrackedRoute (routeId : Z)
| PostComparePrices (body : ComparePricesBody.t)
| GetCitiesAutocomplete (query : string).

(** What awaiting a request gives: the [data] of the response, or the error
    the [catch] clause receives. *)
Inductive Outcome (A : Type) : Type :=
| Resolved (data : A)
| Rejected (reason : string).

Arguments Resolved {A} data.
Arguments Rejected {A} reason.

(** The backend, seen from the client: an answer for every request. *)
Record Backend : Type := {
  track_route : TrackRouteBody.t -> Outcome unit;
  tracked_routes : string -> Outcome (list TrackedRoute.t);
  delete_tracked_route : Z -> Outcome unit;
  compare_prices : ComparePricesBody.t -> Outcome (list PriceEstimate.t);
  cities_autocomplete : string -> Outcome (list string)
}.

Inductive Severity : Type := success | error.

(** The snackbar state, the single slot for a notice. *)
Record Snackbar : Type := {
  open : bool;
  message : string;
  severity : Severity
}.

(** ** The handler monad: component state, request log, console *)

Section Handlers.

Variable State : Type.

Record World : Type := {
  state : State;
  requests : list Request;
  console : list string
}.

Definition M (A : Type) : Type := World -> A * World.

Definition ret {A : Type} (a : A) : M A := fun w => (a, w).

Definition bind {A B : Type} (c : M A) (k : A -> M B) : M B :=
  fun w => let (a, w') := c w in k a w'.

(** A setter of [useState], with a value or with an updater function. *)
Definition update (f : State -> State) : M unit :=
  fun w => (tt, {| state := f (state w);
                   requests := requests w;
                   console := console w |}).

(** Issues a request and awaits its outcome. *)
Definition await {A : Type} (r : Request) (answer : Outcome A)
  : M (Outcome A) :=
  fun w => (answer, {| state := state w;
                       requests := requests w ++ [r];
                       console := console w |}).

(** [console.error(msg, error)] *)
Definition console_error (msg : string) : M unit :=
  fun w => (tt, {| state := state w;
                   requests := requests w;
                   console := console w ++ [msg] |}).

(** Runs a handler in the world where the event fires: its closure holds
    the state of the latest render. *)
Definition fire (h : State -> M unit) (w : World) : World :=
  snd (h (state w) w).

End Handlers.

Arguments state {State} w.
Arguments requests {State} w.
Arguments console {State} w.
Arguments ret {State A} a.
Arguments bind {State A B} c k.
Arguments update {State} f.
Arguments await {State A} r answer.
Arguments console_error {State} msg.
Arguments fire {State} h w.

Declare Scope handler_scope.
Delimit Scope handler_scope with handler.
Notation "x <- c ;; k" := (bind c (fun x => k))
  (at level 61, c at next level, right associativity) : handler_scope.
Notation "c ;; k" := (bind c (fun _ => k))
  (at level 61, right associativity) : handler_scope.

(** ** The cab flow: [App] *)

Module App.

(** [{pickup?: string; dropoff?: string}] *)
Module Errors.
Record t : Type := {
  pickup : option string;
  dropoff : option string
}.
(** [{}] *)
Definition empty : t := {| pickup := None; dropoff := None |}.
(** [{ ...prev, pickup: msg }] *)
Definition with_pickup (msg : string) (prev : t) : t :=
  {| pickup := Some msg; dropoff := dropoff prev |}.
(** [{ ...prev, dropoff: msg }] *)
Definition with_dropoff (msg : string) (prev : t) : t :=
  {| pickup := pickup prev; dropoff := Some msg |}.
End Errors.

Inductive TabName : Type := home | cab | flights.

(** The [useState] cells of the component.  [targetPrice] is [None] for
    the empty string. *)
Record State : Type := {
  currentTab : TabName;
  pickup : string;
  dropoff : string;
  passengerCount : Z;
  estimates : list PriceEstimate.t;
  loading : bool;
  pickupOptions : list string;
  dropoffOptions : list string;
  snackbar : Snackbar;
  phoneNumber : string;
  targetPrice : option JS.number;
  trackedRoutes : list TrackedRoute.t;
  showTrackedRoutes : bool;
  errors : Errors.t
}.

(** The state of the first render. *)
Definition initial : State := {|
  currentTab := cab;
  pickup := "";
  dropoff := "";
  passengerCount := 1;
  estimates := [];
  loading := false;
  pickupOptions := [];
  dropoffOptions := [];
  snackbar := {| open := false; message := ""; severity := success |};
  phoneNumber := "";
  targetPrice := None;
  trackedRoutes := [];
  showTrackedRoutes := false;
  errors := Errors.empty
|}.

Definition setCurrentTab (v : TabName) : M State unit :=
  update (fun s =>
    {| currentTab := v; pickup := pickup s; dropoff := dropoff s;
       passengerCount := passengerCount s; estimates := estimates s;
       loading := loading s; pickupOptions := pickupOptions s;
       dropoffOptions := dropoffOptions s; snackbar := snackbar s;
       phoneNumber := phoneNumber s; targetPrice := targetPrice s;
       trackedRoutes := trackedRoutes s;
       showTrackedRoutes := showTrackedRoutes s; errors := errors s |}).

Definition setPickup (v : string) : M State unit :=
  update (fun s =>
    {| currentTab := currentTab s; pickup := v; dropoff := dropoff s;
       passengerCount := passengerCount s; estimates := estimates s;
       loading := loading s; pickupOptions := pickupOptions s;
       dropoffOptions := dropoffOptions s; snackbar := snackbar s;
       phoneNumber := phoneNumber s; targetPrice := targetPrice s;
       trackedRoutes := trackedRoutes s;
       showTrackedRoutes := showTrackedRoutes s; errors := errors s |}).

Definition setDropoff (v : string) : M State unit :=
  update (fun s =>
    {| currentTab := currentTab s; pickup := pickup s; dropoff := v;
       passengerCount := passengerCount s; estimates := estimates s;
       loading := loading s; pickupOptions := pickupOptions s;
       dropoffOptions := dropoffOptions s; snackbar := snackbar s;
       phoneNumber := phoneNumber s; targetPrice := targetPrice s;
       trackedRoutes := trackedRoutes s;
       showTrackedRoutes := showTrackedRoutes s; errors := errors s |}).

Definition setPassengerCount (v : Z) : M State unit :=
  update (fun s =>
    {| currentTab := currentTab s; pickup := pickup s;
       dropoff := dropoff s;
       passengerCount := v; estimates := estimates s;
       loading := loading s; pickupOptions := pickupOptions s;
       dropoffOptions := dropoffOptions s; snackbar := snackbar s;
       phoneNumber := phoneNumber s; targetPrice := targetPrice s;
       trackedRoutes := trackedRoutes s;
       showTrackedRoutes := showTrackedRoutes s; errors := errors s |}).

Definition setEstimates (v : list PriceEstimate.t) : M State unit :=
  update (fun s =>
    {| currentTab := currentTab s; pickup := pickup s;
       dropoff := dropoff s;
       passengerCount := passengerCount s; estimates := v;
       loading := loading s; pickupOptions := pickupOptions s;
       dropoffOptions := dropoffOptions s; snackbar := snackbar s;
       phoneNumber := phoneNumber s; targetPrice := targetPrice s;
       trackedRoutes := trackedRoutes s;
       showTrackedRoutes := showTrackedRoutes s; errors := errors s |}).

Definition setLoading (v : bool) : M State unit :=
  update (fun s =>
    {| currentTab := currentTab s; pickup := pickup s;
       dropoff := dropoff s;
       passengerCount := passengerCount s; estimates := estimates s;
       loading := v; pickupOptions := pickupOptions s;
       dropoffOptions := dropoffOptions s; snackbar := snackbar s;
       phoneNumber := phoneNumber s; targetPrice := targetPrice s;
       trackedRoutes := trackedRoutes s;
       showTrackedRoutes := showTrackedRoutes s; errors := errors s |}).

Definition setPickupOptions (v : list string) : M State unit :=
  update (fun s =>
    {| currentTab := currentTab s; pickup := pickup s;
       dropoff := dropoff s;
       passengerCount := passengerCount s; estimates := estimates s;
       loading := loading s; pickupOptions := v;
       dropoffOptions := dropoffOptions s; snackbar := snackbar s;
       phoneNumber := phoneNumber s; targetPrice := targetPrice s;
       trackedRoutes := trackedRoutes s;
       showTrackedRoutes := showTrackedRoutes s; errors := errors s |}).

Definition setDropoffOptions (v : list string) : M State unit :=
  update (fun s =>
    {| currentTab := currentTab s; pickup := pickup s;
       dropoff := dropoff s;
       passengerCount := passengerCount s; estimates := estimates s;
       loading := loading s; pickupOptions := pickupOptions s;
       dropoffOptions := v; snackbar := snackbar s;
       phoneNumber := phoneNumber s; targetPrice := targetPrice s;
       trackedRoutes := trackedRoutes s;
       showTrackedRoutes := showTrackedRoutes s; errors := errors s |}).

Definition setSnackbar (v : Snackbar) : M State unit :=
  update (fun s =>
    {| currentTab := currentTab s; pickup := pickup s;
       dropoff := dropoff s;
       passengerCount := passengerCount s; estimates := estimates s;
       loading := loading s; pickupOptions := pickupOptions s;
       dropoffOptions := dropoffOptions s; snackbar := v;
       phoneNumber := phoneNumber s; targetPrice := targetPrice s;
       trackedRoutes := trackedRoutes s;
       showTrackedRoutes := showTrackedRoutes s; errors := errors s |}).

Definition setPhoneNumber (v : string) : M State unit :=
  update (fun s =>
    {| currentTab := currentTab s; pickup := pickup s;
       dropoff := dropoff s;
       passengerCount := passengerCount s; estimates := estimates s;
       loading := loading s; pickupOptions := pickupOptions s;
       dropoffOptions := dropoffOptions s; snackbar := snackbar s;
       phoneNumber := v; targetPrice := targetPrice s;
       trackedRoutes := trackedRoutes s;
       showTrackedRoutes := showTrackedRoutes s; errors := errors s |}).

Definition setTargetPrice (v : option JS.number) : M State unit :=
  update (fun s =>
    {| currentTab := currentTab s; pickup := pickup s;
       dropoff := dropoff s;
       passengerCount := passengerCount s; estimates := estimates s;
       loading := loading s; pickupOptions := pickupOptions s;
       dropoffOptions := dropoffOptions s; snackbar := snackbar s;
       phoneNumber := phoneNumber s; targetPrice := v;
       trackedRoutes := trackedRoutes s;
       showTrackedRoutes := showTrackedRoutes s; errors := errors s |}).

Definition setTrackedRoutes (v : list TrackedRoute.t) : M State unit :=
  update (fun s =>
    {| currentTab := currentTab s; pickup := pickup s;
       dropoff := dropoff s;
       passengerCount := passengerCount s; estimates := estimates s;
       loading := loading s; pickupOptions := pickupOptions s;
       dropoffOptions := dropoffOptions s; snackbar := snackbar s;
       phoneNumber := phoneNumber s; targetPrice := targetPrice s;
       trackedRoutes := v;
       showTrackedRoutes := showTrackedRoutes s; errors := errors s |}).

Definition setShowTrackedRoutes (v : bool) : M State unit :=
  update (fun s =>
    {| currentTab := currentTab s; pickup := pickup s;
       dropoff := dropoff s;
       passengerCount := passengerCount s; estimates := estimates s;
       loading := loading s; pickupOptions := pickupOptions s;
       dropoffOptions := dropoffOptions s; snackbar := snackbar s;
       phoneNumber := phoneNumber s; targetPrice := targetPrice s;
       trackedRoutes := trackedRoutes s;
       showTrackedRoutes := v; errors := errors s |}).

(** [setErrors] takes an updater: [setErrors({})] is the constant one. *)
Definition setErrors (f : Errors.t -> Errors.t) : M State unit :=
  update (fun s =>
    {| currentTab := currentTab s; pickup := pickup s;
       dropoff := dropoff s;
       passengerCount := passengerCount s; estimates := estimates s;
       loading := loading s; pickupOptions := pickupOptions s;
       dropoffOptions := dropoffOptions s; snackbar := snackbar s;
       phoneNumber := phoneNumber s; targetPrice := targetPrice s;
       trackedRoutes := trackedRoutes s;
       showTrackedRoutes := showTrackedRoutes s; errors := f (errors s) |}).

Section WithBackend.

Variable backend : Backend.

Local Open Scope handler_scope.

(** [/^\+[1-9]\d{10,14}$/] *)
Definition phone_pattern : JS.regex :=
  JS.RSeq JS.RBol
    (JS.RSeq (JS.RChar "+")
       (JS.RSeq (JS.RRange "1" "9")
          (JS.RSeq (JS.RRepeat JS.RDigit 10 14) JS.REol))).

Definition invalid_phone_notice : Snackbar :=
  {| open := true;
     message := "Please enter a valid phone number in E.164 format (e.g., +1XXXXXXXXXX)";
     severity := error |}.

Definition tracking_started_notice : Snackbar :=
  {| open := true;
     message := "Route tracking started! We'll notify you when the price drops below your target.";
     severity := success |}.

Definition tracking_failed_notice : Snackbar :=
  {| open := true;
     message := "Failed to start route tracking";
     severity := error |}.

Definition fetch_failed_notice : Snackbar :=
  {| open := true;
     message := "Failed to fetch tracked routes. Please make sure your phone number is in E.164 format (+1XXXXXXXXXX)";
     severity := error |}.

Definition route_deleted_notice : Snackbar :=
  {| open := true;
     message := "Route tracking stopped and deleted";
     severity := success |}.

Definition delete_failed_notice : Snackbar :=
  {| open := true;
     message := "Failed to delete tracked route";
     severity := error |}.

Definition request_failed_notice : Snackbar :=
  {| open := true;
     message := "Failed to fetch price estimates";
     severity := error |}.

Definition handleSnackbarClose (c : State) : M State unit :=
  setSnackbar {| open := false;
                 message := message (snackbar c);
                 severity := severity (snackbar c) |}.

Definition fetchTrackedRoutes (c : State) : M State unit :=
  if JS.falsy (phoneNumber c) then ret tt
  else
    let formattedNumber :=
      if JS.startsWith (phoneNumber c) "+" then phoneNumber c
      else "+" ++ phoneNumber c in
    response <- await (GetTrackedRoutes formattedNumber)
                      (tracked_routes backend formattedNumber) ;;
    match response with
    | Resolved data => setTrackedRoutes data
    | Rejected _ =>
        console_error "Failed to fetch tracked routes:" ;;
        setSnackbar fetch_failed_notice
    end.

(** The body [trackRoute] posts for an estimate. *)
Definition track_route_body (c : State) (estimate : PriceEstimate.t)
  : TrackRouteBody.t :=
  {| TrackRouteBody.pickup_address := PriceEstimate.pickup estimate;
     TrackRouteBody.dropoff_address := PriceEstimate.dropoff estimate;
     TrackRouteBody.passenger_count := passengerCount c;
     TrackRouteBody.phone_number := phoneNumber c;
     TrackRouteBody.target_price :=
       JS.parseFloat
         (JS.replace_first_empty
            (PriceEstimate.price_estimate estimate) "$") |}.

Definition trackRoute (estimate : PriceEstimate.t) (c : State)
  : M State unit :=
  if negb (JS.matches (phoneNumber c) phone_pattern) then
    setSnackbar invalid_phone_notice
  else
    let body := track_route_body c estimate in
    response <- await (PostTrackRoute body) (track_route backend body) ;;
    match response with
    | Resolved _ =>
        setSnackbar tracking_started_notice ;;
        fetchTrackedRoutes c
    | Rejected _ => setSnackbar tracking_failed_notice
    end.

Definition deleteTrackedRoute (routeId : Z) (c : State) : M State unit :=
  response <- await (DeleteTrackedRoute routeId)
                    (delete_tracked_route backend routeId) ;;
  match response with
  | Resolved _ =>
      setSnackbar route_deleted_notice ;;
      fetchTrackedRoutes c
  | Rejected _ => setSnackbar delete_failed_notice
  end.

(** The effect on [phoneNumber, showTrackedRoutes]. *)
Definition tracked_routes_effect (c : State) : M State unit :=
  if negb (JS.falsy (phoneNumber c)) && showTrackedRoutes c
  then fetchTrackedRoutes c
  else ret tt.

Definition formatDuration (seconds : Z) : string :=
  let hours := JS.floor_div seconds 3600 in
  let minutes := JS.floor_div (JS.rem seconds 3600) 60 in
  if 0 <? hours
  then JS.int_toString hours ++ "h " ++ JS.int_toString minutes ++ "m"
  else JS.int_toString minutes ++ " minutes".

Definition compare_prices_body (c : State) : ComparePricesBody.t :=
  {| ComparePricesBody.pickup_address := pickup c;
     ComparePricesBody.dropoff_address := dropoff c;
     ComparePricesBody.passenger_count := passengerCount c |}.

Definition comparePrices (c : State) : M State unit :=
  setErrors (fun _ => Errors.empty) ;;
  if JS.falsy (pickup c) then
    setErrors (Errors.with_pickup "Please enter a pickup location")
  else if JS.falsy (dropoff c) then
    setErrors (Errors.with_dropoff "Please enter a dropoff location")
  else
    setLoading true ;;
    response <- await (PostComparePrices (compare_prices_body c))
                      (compare_prices backend (compare_prices_body c)) ;;
    match response with
    | Resolved data => setEstimates data
    | Rejected _ => setSnackbar request_failed_notice
    end ;;
    setLoading false.

(** [onInputChange] of the pickup field. *)
Definition onPickupInputChange (newValue : string) (c : State)
  : M State unit :=
  setPickup newValue ;;
  if 1 <=? JS.length newValue then
    response <- await (GetCitiesAutocomplete newValue)
                      (cities_autocomplete backend newValue) ;;
    match response with
    | Resolved data => setPickupOptions data
    | Rejected _ => console_error "Failed to fetch city suggestions:"
    end
  else ret tt.

(** [onInputChange] of the dropoff field. *)
Definition onDropoffInputChange (newValue : string) (c : State)
  : M State unit :=
  setDropoff newValue ;;
  if 1 <=? JS.length newValue then
    response <- await (GetCitiesAutocomplete newValue)
                      (cities_autocomplete backend newValue) ;;
    match response with
    | Resolved data => setDropoffOptions data
    | Rejected _ => console_error "Failed to fetch city suggestions:"
    end
  else ret tt.

(** [onChange] of the passenger-count field, on [e.target.value]. *)
Definition onPassengerCountChange (value : string) (c : State)
  : M State unit :=
  setPassengerCount
    (Z.max 1 (Z.min 7 (JS.or_else (JS.parseInt value) 1))).

(** [onChange] of the phone field. *)
Definition onPhoneNumberChange (value : string) (c : State)
  : M State unit :=
  setPhoneNumber value.

(** [onClick] of the tracked-routes button. *)
Definition onToggleTrackedRoutes (c : State) : M State unit :=
  setShowTrackedRoutes (negb (showTrackedRoutes c)).

End WithBackend.

(** The rate shown on a card:
    [parseFloat(estimate.price_estimate.slice(1)) / estimate.distance]. *)
Definition rate_per_mile (estimate : PriceEstimate.t) : JS.number :=
  JS.div (JS.parseFloat (JS.slice1 (PriceEstimate.price_estimate estimate)))
         (PriceEstimate.distance estimate).

(** [Rate: ${(...).toFixed(2)}/mile] *)
Definition rate_display (estimate : PriceEstimate.t) : string :=
  JS.toFixed (rate_per_mile estimate) 2.

Definition rate_line (estimate : PriceEstimate.t) : string :=
  "Rate: $" ++ rate_display estimate ++ "/mile".

(** The distance shown on a card: [estimate.distance.toFixed(1)]. *)
Definition distance_display (estimate : PriceEstimate.t) : string :=
  JS.toFixed (PriceEstimate.distance estimate) 1.

(** The target shown for a tracked route:
    [route.target_price.toFixed(2)]. *)
Definition target_price_display (route : TrackedRoute.t) : string :=
  JS.toFixed (TrackedRoute.target_price route) 2.

(** What the user does.  [TargetPriceInput] carries the field's value
    after [Number(...)], [None] for the empty field. *)
Inductive Event : Type :=
| TabChange (newValue : TabName)
| PickupInput (newValue : string)
| DropoffInput (newValue : string)
| PassengerCountInput (value : string)
| PhoneNumberInput (value : string)
| TargetPriceInput (value : option JS.number)
| ClickComparePrices
| ClickToggleTrackedRoutes
| ClickTrackPrice (estimate : PriceEstimate.t)
| ClickDelete (routeId : Z)
| CloseSnackbar.

(** One event, handled to completion, then the effect when one of its
    dependencies changed. *)
Definition step (backend : Backend) (ev : Event) (w : World State)
  : World State :=
  match ev with
  | TabChange v => fire (fun _ => setCurrentTab v) w
  | PickupInput v => fire (onPickupInputChange backend v) w
  | DropoffInput v => fire (onDropoffInputChange backend v) w
  | PassengerCountInput v => fire (onPassengerCountChange v) w
  | PhoneNumberInput v =>
      let w' := fire (onPhoneNumberChange v) w in
      if String.eqb v (phoneNumber (state w)) then w'
      else fire (tracked_routes_effect backend) w'
  | TargetPriceInput v => fire (fun _ => setTargetPrice v) w
  | ClickComparePrices => fire (comparePrices backend) w
  | ClickToggleTrackedRoutes =>
      fire (tracked_routes_effect backend) (fire onToggleTrackedRoutes w)
  | ClickTrackPrice e => fire (trackRoute backend e) w
  | ClickDelete i => fire (deleteTrackedRoute backend i) w
  | CloseSnackbar => fire handleSnackbarClose w
  end.

(** The world after a sequence of events, each answered by the backend
    of its moment. *)
Fixpoint run (trace : list (Backend * Event)) (w : World State)
  : World State :=
  match trace with
  | [] => w
  | (b, ev) :: rest => run rest (step b ev w)
  end.

Definition start : World State :=
  {| state := initial; requests := []; console := [] |}.

End App.

(** ** The flight flow: [FlightComparison] *)

Module FlightComparison.

Inductive FieldType : Type := origin_field | destination_field.

(** The [useState] cells of the component; a date is its time value. *)
Record State : Type := {
  origin : string;
  destination : string;
  departureDate : option Z;
  returnDate : option Z;
  passengers : Z;
  cabinClass : string;
  estimates : list FlightEstimate.t;
  loading : bool;
  cityOptions : list string;
  snackbar : Snackbar
}.

Definition initial : State := {|
  origin := "";
  destination := "";
  departureDate := None;
  returnDate := None;
  passengers := 1;
  cabinClass := "economy";
  estimates := [];
  loading := false;
  cityOptions := [];
  snackbar := {| open := false; message := ""; severity := success |}
|}.

Definition setOrigin (v : string) : M State unit :=
  update (fun s =>
    {| origin := v; destination := destination s;
       departureDate := departureDate s; returnDate := returnDate s;
       passengers := passengers s; cabinClass := cabinClass s;
       estimates := estimates s; loading := loading s;
       cityOptions := cityOptions s; snackbar := snackbar s |}).

Definition setDestination (v : string) : M State unit :=
  update (fun s =>
    {| origin := origin s; destination := v;
       departureDate := departureDate s; returnDate := returnDate s;
       passengers := passengers s; cabinClass := cabinClass s;
       estimates := estimates s; loading := loading s;
       cityOptions := cityOptions s; snackbar := snackbar s |}).

Definition setCityOptions (v : list string) : M State unit :=
  update (fun s =>
    {| origin := origin s; destination := destination s;
       departureDate := departureDate s; returnDate := returnDate s;
       passengers := passengers s; cabinClass := cabinClass s;
       estimates := estimates s; loading := loading s;
       cityOptions := v; snackbar := snackbar s |}).

Definition setSnackbar (v : Snackbar) : M State unit :=
  update (fun s =>
    {| origin := origin s; destination := destination s;
       departureDate := departureDate s; returnDate := returnDate s;
       passengers := passengers s; cabinClass := cabinClass s;
       estimates := estimates s; loading := loading s;
       cityOptions := cityOptions s; snackbar := v |}).

Definition suggestions_failed_notice : Snackbar :=
  {| open := true;
     message := "Failed to fetch city suggestions. Please try again.";
     severity := error |}.

(** The [options] property of the origin field. *)
Definition origin_options (s : State) : list string := cityOptions s.

(** The [options] property of the destination field. *)
Definition destination_options (s : State) : list string := cityOptions s.

Section WithBackend.

Variable backend : Backend.

Local Open Scope handler_scope.

Definition handleCitySearch (query : string) (type : FieldType)
  : M State unit :=
  if 2 <=? JS.length query then
    response <- await (GetCitiesAutocomplete query)
                      (cities_autocomplete backend query) ;;
    match response with
    | Resolved data => setCityOptions data
    | Rejected _ =>
        console_error "Failed to fetch city suggestions:" ;;
        setSnackbar suggestions_failed_notice
    end
  else ret tt.

(** [onInputChange] of the origin field. *)
Definition onOriginInputChange (newValue : string) (c : State)
  : M State unit :=
  setOrigin newValue ;;
  handleCitySearch newValue origin_field.

(** [onInputChange] of the destination field. *)
Definition onDestinationInputChange (newValue : string) (c : State)
  : M State unit :=
  setDestination newValue ;;
  handleCitySearch newValue destination_field.

(** [onInputChange] of the field of type [type]. *)
Definition onInputChange (type : FieldType) (newValue : string)
  : State -> M State unit :=
  match type with
  | origin_field => onOriginInputChange newValue
  | destination_field => onDestinationInputChange newValue
  end.

End WithBackend.

(** [formatDuration] of this component, on minutes. *)
Definition formatDuration (minutes : Z) : string :=
  let hours := JS.floor_div minutes 60 in
  let mins := JS.rem minutes 60 in
  JS.int_toString hours ++ "h " ++ JS.int_toString mins ++ "m".

(** *** Searching flights *)

Definition setDepartureDate (v : option Z) : M State unit :=
  update (fun s =>
    {| origin := origin s; destination := destination s;
       departureDate := v; returnDate := returnDate s;
       passengers := passengers s; cabinClass := cabinClass s;
       estimates := estimates s; loading := loading s;
       cityOptions := cityOptions s; snackbar := snackbar s |}).

Definition setReturnDate (v : option Z) : M State unit :=
  update (fun s =>
    {| origin := origin s; destination := destination s;
       departureDate := departureDate s; returnDate := v;
       passengers := passengers s; cabinClass := cabinClass s;
       estimates := estimates s; loading := loading s;
       cityOptions := cityOptions s; snackbar := snackbar s |}).

Definition setPassengers (v : Z) : M State unit :=
  update (fun s =>
    {| origin := origin s; destination := destination s;
       departureDate := departureDate s; returnDate := returnDate s;
       passengers := v; cabinClass := cabinClass s;
       estimates := estimates s; loading := loading s;
       cityOptions := cityOptions s; snackbar := snackbar s |}).

Definition setCabinClass (v : string) : M State unit :=
  update (fun s =>
    {| origin := origin s; destination := destination s;
       departureDate := departureDate s; returnDate := returnDate s;
       passengers := passengers s; cabinClass := v;
       estimates := estimates s; loading := loading s;
       cityOptions := cityOptions s; snackbar := snackbar s |}).

Definition setEstimates (v : list FlightEstimate.t) : M State unit :=
  update (fun s =>
    {| origin := origin s; destination := destination s;
       departureDate := departureDate s; returnDate := returnDate s;
       passengers := passengers s; cabinClass := cabinClass s;
       estimates := v; loading := loading s;
       cityOptions := cityOptions s; snackbar := snackbar s |}).

Definition setLoading (v : bool) : M State unit :=
  update (fun s =>
    {| origin := origin s; destination := destination s;
       departureDate := departureDate s; returnDate := returnDate s;
       passengers := passengers s; cabinClass := cabinClass s;
       estimates := estimates s; loading := v;
       cityOptions := cityOptions s; snackbar := snackbar s |}).

(** The body of [POST /compare-flights].  A date field holds the time value
    of the [Date] whose [toISOString()] is sent; [None] is [undefined], a
    key that JSON leaves out. *)
Module CompareFlightsBody.
Record t : Type := {
  origin : string;
  destination : string;
  departure_date : Z;
  return_date : option Z;
  passengers : Z;
  cabin_class : string
}.
End CompareFlightsBody.

(** What a [catch (error: unknown)] clause receives. *)
Inductive Thrown : Type :=
| ErrorObject (message : string)     (* error instanceof Error *)
| OtherValue.

Inductive Settled (A : Type) : Type :=
| Fulfilled (data : A)
| Threw (e : Thrown).

Arguments Fulfilled {A} data.
Arguments Threw {A} e.

(** The flight backend, seen from the client. *)
Definition FlightBackend : Type :=
  CompareFlightsBody.t -> Settled (list FlightEstimate.t).

(** The world of the component with the compare-flights requests it has
    issued. *)
Record Page : Type := {
  world : World State;
  searches : list CompareFlightsBody.t
}.

Definition P (A : Type) : Type := Page -> A * Page.

Definition pret {A : Type} (a : A) : P A := fun p => (a, p).

Definition pbind {A B : Type} (c : P A) (k : A -> P B) : P B :=
  fun p => let (a, p') := c p in k a p'.

(** A computation on the component's world, run on the page. *)
Definition lift {A : Type} (c : M State A) : P A :=
  fun p => let (a, w') := c (world p) in
           (a, {| world := w'; searches := searches p |}).

(** [await axios.post('.../compare-flights', body)] *)
Definition post_compare_flights (flights : FlightBackend)
           (body : CompareFlightsBody.t)
  : P (Settled (list FlightEstimate.t)) :=
  fun p => (flights body,
            {| world := world p; searches := searches p ++ [body] |}).

Definition pfire (h : State -> P unit) (p : Page) : Page :=
  snd (h (state (world p)) p).

Definition required_fields_notice : Snackbar :=
  {| open := true;
     message := "Please fill in all required fields";
     severity := error |}.

(** [`Error: ${errorMessage}`] of the catch clause. *)
Definition search_failed_notice (e : Thrown) : Snackbar :=
  let errorMessage :=
    match e with
    | ErrorObject message => message
    | OtherValue => "Failed to fetch flight prices"
    end in
  {| open := true;
     message := "Error: " ++ errorMessage;
     severity := error |}.

Definition compare_flights_body (c : State) (departure : Z)
  : CompareFlightsBody.t :=
  {| CompareFlightsBody.origin := origin c;
     CompareFlightsBody.destination := destination c;
     CompareFlightsBody.departure_date := departure;
     CompareFlightsBody.return_date := returnDate c;
     CompareFlightsBody.passengers := passengers c;
     CompareFlightsBody.cabin_class := cabinClass c |}.

(** [handleSearch]: the guard [!origin || !destination || !departureDate],
    then the request between [setLoading(true)] and the [finally]. *)
Definition handleSearch (flights : FlightBackend) (c : State) : P unit :=
  match departureDate c with
  | Some departure =>
      if JS.falsy (origin c) || JS.falsy (destination c) then
        lift (setSnackbar required_fields_notice)
      else
        pbind (lift (setLoading true)) (fun _ =>
        pbind (post_compare_flights flights
                 (compare_flights_body c departure)) (fun response =>
        pbind (match response with
               | Fulfilled data => lift (setEstimates data)
               | Threw e => lift (setSnackbar (search_failed_notice e))
               end) (fun _ =>
        lift (setLoading false))))
  | None => lift (setSnackbar required_fields_notice)
  end.

(** [onClose] of the snackbar and of its alert. *)
Definition handleSnackbarClose (c : State) : M State unit :=
  setSnackbar {| open := false;
                 message := message (snackbar c);
                 severity := severity (snackbar c) |}.

(** The values of the [MenuItem]s of the two selects. *)
Definition passenger_choices : list Z := [1; 2; 3; 4; 5; 6].

Definition cabin_choices : list string :=
  ["economy"; "premium_economy"; "business"; "first"].

(** What the user does.  A select reports the value of the item picked,
    given here by its position in the menu. *)
Inductive Event : Type :=
| OriginInput (newValue : string)
| DestinationInput (newValue : string)
| DepartureDateChange (newValue : option Z)
| ReturnDateChange (newValue : option Z)
| PassengersSelect (item : nat)
| CabinClassSelect (item : nat)
| ClickSearch
| CloseSnackbar.

Definition step (backend : Backend) (flights : FlightBackend) (ev : Event)
           (p : Page) : Page :=
  match ev with
  | OriginInput v => pfire (fun c => lift (onOriginInputChange backend v c)) p
  | DestinationInput v =>
      pfire (fun c => lift (onDestinationInputChange backend v c)) p
  | DepartureDateChange v => pfire (fun _ => lift (setDepartureDate v)) p
  | ReturnDateChange v => pfire (fun _ => lift (setReturnDate v)) p
  | PassengersSelect i =>
      match nth_error passenger_choices i with
      | Some num => pfire (fun _ => lift (setPassengers num)) p
      | None => p
      end
  | CabinClassSelect i =>
      match nth_error cabin_choices i with
      | Some value => pfire (fun _ => lift (setCabinClass value)) p
      | None => p
      end
  | ClickSearch => pfire (handleSearch flights) p
  | CloseSnackbar => pfire (fun c => lift (handleSnackbarClose c)) p
  end.

Fixpoint run (trace : list (Backend * FlightBackend * Event)) (p : Page)
  : Page :=
  match trace with
  | [] => p
  | (b, f, ev) :: rest => run rest (step b f ev p)
  end.

Definition start : Page :=
  {| world := {| state := initial; requests := []; console := [] |};
     searches := [] |}.

End FlightComparison.

(** ** What the specification says, in its own words *)

Module Spec.

Fixpoint all_digits (s : string) : bool :=
  match s with
  | EmptyString => true
  | String a s' => JS.is_digit a && all_digits s'
  end.

(** E.164 shape: a leading [+], then one digit from 1 to 9, then 10 to 14
    more digits. *)
Definition e164_shape (p : string) : bool :=
  match p with
  | String sign (String d rest) =>
      Ascii.eqb sign "+" && JS.in_range "1" "9" d &&
      all_digits rest &&
      (10 <=? String.length rest)%nat && (String.length rest <=? 14)%nat
  | _ => false
  end.

(** [hours = floor(seconds/3600)], [minutes = floor(seconds%3600/60)];
    ["{h}h {m}m"] when [hours > 0], else ["{m} minutes"]. *)
Definition formatDuration (seconds : Z) : string :=
  let hours := seconds / 3600 in
  let minutes := (seconds mod 3600) / 60 in
  if 0 <? hours
  then JS.digits_of hours ++ "h " ++ JS.digits_of minutes ++ "m"
  else JS.digits_of minutes ++ " minutes".

(** [min(7, max(1, parseInt(s)))], an input that does not parse counting
    as 1. *)
Definition passenger_count_of (s : string) : Z :=
  Z.min 7 (Z.max 1 (match JS.parseInt s with Some n => n | None => 1 end)).

(** A decimal numeral: digits, then possibly a point and more digits. *)
Definition numeral (int_part : string) (frac_part : option string)
  : string :=
  match frac_part with
  | None => int_part
  | Some f => int_part ++ "." ++ f
  end.

(** The numeral read as a decimal: the integer its digits spell, and the
    power of ten that scales it. *)
Definition numeral_digits (int_part : string) (frac_part : option string)
  : Z :=
  JS.digits_value
    (int_part ++ match frac_part with Some f => f | None => "" end).

Definition numeral_scale (frac_part : option string) : Z :=
  match frac_part with
  | Some f => - JS.length f
  | None => 0
  end.


(** One value stands for "unavailable" on every card of a trip of
    distance zero. *)
Definition unavailable_marker (display : PriceEstimate.t -> string)
           (cards : list PriceEstimate.t) : Prop :=
  exists unavailable : string,
    Forall (fun e => display e = unavailable) cards.

(** Both fields are reported after a submit. *)
Definition both_fields_reported (e : App.Errors.t) : Prop :=
  App.Errors.pickup e <> None /\ App.Errors.dropoff e <> None.

End Spec.

(** ** Concrete inputs *)

Module Examples.

(** A backend whose every request fails in transport. *)
Definition offline : Backend := {|
  track_route := fun _ => Rejected "Network Error";
  tracked_routes := fun _ => Rejected "Network Error";
  delete_tracked_route := fun _ => Rejected "Network Error";
  compare_prices := fun _ => Rejected "Network Error";
  cities_autocomplete := fun _ => Rejected "Network Error"
|}.

Definition uber : PriceEstimate.t := {|
  PriceEstimate.service := "Uber";
  PriceEstimate.price_estimate := "$23.50";
  PriceEstimate.duration := 3661;
  PriceEstimate.distance := JS.of_Z 5;
  PriceEstimate.pickup := "Manhattan";
  PriceEstimate.dropoff := "Brooklyn";
  PriceEstimate.app_url := "uber://";
  PriceEstimate.web_url := "https://m.uber.com";
  PriceEstimate.recommended := true;
  PriceEstimate.capacity := "1-4"
|}.

(** The same quote for a trip of no length. *)
Definition uber_nowhere : PriceEstimate.t := {|
  PriceEstimate.service := "Uber";
  PriceEstimate.price_estimate := "$23.50";
  PriceEstimate.duration := 0;
  PriceEstimate.distance := S754_zero false;
  PriceEstimate.pickup := "Manhattan";
  PriceEstimate.dropoff := "Manhattan";
  PriceEstimate.app_url := "uber://";
  PriceEstimate.web_url := "https://m.uber.com";
  PriceEstimate.recommended := true;
  PriceEstimate.capacity := "1-4"
|}.

(** A free ride of no length. *)
Definition free_nowhere : PriceEstimate.t := {|
  PriceEstimate.service := "Lyft";
  PriceEstimate.price_estimate := "$0.00";
  PriceEstimate.duration := 0;
  PriceEstimate.distance := S754_zero false;
  PriceEstimate.pickup := "Manhattan";
  PriceEstimate.dropoff := "Manhattan";
  PriceEstimate.app_url := "lyft://";
  PriceEstimate.web_url := "https://ride.lyft.com";
  PriceEstimate.recommended := false;
  PriceEstimate.capacity := "1-4"
|}.

(** A backend that answers every request. *)
Definition online : Backend := {|
  track_route := fun _ => Resolved tt;
  tracked_routes := fun _ => Resolved [];
  delete_tracked_route := fun _ => Resolved tt;
  compare_prices := fun _ => Resolved [uber];
  cities_autocomplete := fun _ => Resolved ["Manhattan"; "Brooklyn"]
|}.

(** The cab form filled in, with [given] already on display. *)
Definition filled (pickup dropoff phone : string)
           (given : list PriceEstimate.t) : World App.State :=
  {| state := {|
       App.currentTab := App.cab;
       App.pickup := pickup;
       App.dropoff := dropoff;
       App.passengerCount := 2;
       App.estimates := given;
       App.loading := false;
       App.pickupOptions := [];
       App.dropoffOptions := [];
       App.snackbar :=
         {| open := false; message := ""; severity := success |};
       App.phoneNumber := phone;
       App.targetPrice := Some (JS.of_Z 20);
       App.trackedRoutes := [];
       App.showTrackedRoutes := false;
       App.errors := App.Errors.empty |};
     requests := [];
     console := [] |}.

Definition flight_start : World FlightComparison.State :=
  {| state := FlightComparison.initial; requests := []; console := [] |}.

(** A tracked route as the backend lists it. *)
Definition commute : TrackedRoute.t := {|
  TrackedRoute.id := 7;
  TrackedRoute.pickup := "Manhattan";
  TrackedRoute.dropoff := "Brooklyn";
  TrackedRoute.passenger_count := 2;
  TrackedRoute.phone_number := "+15551234567";
  TrackedRoute.target_price := JS.of_Z 20;
  TrackedRoute.is_active := true;
  TrackedRoute.created_at := "2025-01-01T00:00:00"
|}.

(** A backend that accepts a new route and then fails to list. *)
Definition lists_nothing : Backend := {|
  track_route := fun _ => Resolved tt;
  tracked_routes := fun _ => Rejected "Network Error";
  delete_tracked_route := fun _ => Resolved tt;
  compare_prices := fun _ => Resolved [];
  cities_autocomplete := fun _ => Resolved []
|}.

(** The cab form of [filled], with [routes] in the tracked-routes panel. *)
Definition tracking (phone : string) (routes : list TrackedRoute.t)
  : World App.State :=
  {| state := {|
       App.currentTab := App.cab;
       App.pickup := "Manhattan";
       App.dropoff := "Brooklyn";
       App.passengerCount := 2;
       App.estimates := [uber];
       App.loading := false;
       App.pickupOptions := [];
       App.dropoffOptions := [];
       App.snackbar :=
         {| open := false; message := ""; severity := success |};
       App.phoneNumber := phone;
       App.targetPrice := Some (JS.of_Z 20);
       App.trackedRoutes := routes;
       App.showTrackedRoutes := true;
       App.errors := App.Errors.empty |};
     requests := [];
     console := [] |}.

(** A quote given as a range of prices. *)
Definition uber_range : PriceEstimate.t := {|
  PriceEstimate.service := "UberX";
  PriceEstimate.price_estimate := "$23-29";
  PriceEstimate.duration := 1500;
  PriceEstimate.distance := JS.of_Z 5;
  PriceEstimate.pickup := "Manhattan";
  PriceEstimate.dropoff := "Brooklyn";
  PriceEstimate.app_url := "uber://";
  PriceEstimate.web_url := "https://m.uber.com";
  PriceEstimate.recommended := false;
  PriceEstimate.capacity := "1-4"
|}.

Definition red_eye : FlightEstimate.t := {|
  FlightEstimate.airline := "Delta";
  FlightEstimate.price := JS.of_Z 320;
  FlightEstimate.departure := "23:10";
  FlightEstimate.arrival := "07:25";
  FlightEstimate.duration := 315;
  FlightEstimate.stops := 0;
  FlightEstimate.recommended := true
|}.


Definition flights_up : FlightComparison.FlightBackend :=
  fun _ => FlightComparison.Fulfilled [red_eye].

(** The flight form filled in, with [given] already on display. *)
Definition flight_filled (origin destination : string)
           (departure : option Z) (given : list FlightEstimate.t)
  : FlightComparison.Page :=
  {| FlightComparison.world :=
       {| state := {|
            FlightComparison.origin := origin;
            FlightComparison.destination := destination;
            FlightComparison.departureDate := departure;
            FlightComparison.returnDate := None;
            FlightComparison.passengers := 2;
            FlightComparison.cabinClass := "economy";
            FlightComparison.estimates := given;
            FlightComparison.loading := false;
            FlightComparison.cityOptions := [];
            FlightComparison.snackbar :=
              {| open := false; message := ""; severity := success |} |};
          requests := [];
          console := [] |};
     FlightComparison.searches := [] |}.

End Examples.

(** ** Invariants *)

(** The passenger count a request carries, when it carries one. *)
Definition carries_valid_count (r : Request) : Prop :=
  match r with
  | PostComparePrices body =>
      1 <= ComparePricesBody.passenger_count body <= 7
  | PostTrackRoute body =>
      1 <= TrackRouteBody.passenger_count body <= 7
  | _ => True
  end.

(** The invariant of the cab flow: the stored count and every count sent so
    far lie in 1..7. *)
Definition count_invariant (w : World App.State) : Prop :=
  1 <= App.passengerCount (state w) <= 7
  /\ Forall carries_valid_count (requests w).

(** What the cab flow checks before it sends a request. *)
Definition request_checked (r : Request) : Prop :=
  match r with
  | PostTrackRoute body =>
      Spec.e164_shape (TrackRouteBody.phone_number body) = true
  | GetTrackedRoutes formattedNumber =>
      JS.startsWith formattedNumber "+" = true
  | DeleteTrackedRoute _ => True
  | PostComparePrices body =>
      ComparePricesBody.pickup_address body <> ""
      /\ ComparePricesBody.dropoff_address body <> ""
  | GetCitiesAutocomplete query => query <> ""
  end.

(** At most one field of the form carries an error message. *)
Definition one_field_error (e : App.Errors.t) : Prop :=
  App.Errors.pickup e = None \/ App.Errors.dropoff e = None.

(** The invariant of the cab flow on requests and field errors. *)
Definition checked_invariant (w : World App.State) : Prop :=
  Forall request_checked (requests w)
  /\ one_field_error (App.errors (state w)).




(** A character that ends a decimal numeral: not a digit, not the point,
    not an exponent mark. *)
Definition ends_numeral (c : ascii) : bool :=
  negb (JS.is_digit c) && negb (Ascii.eqb c ".")
  && negb (Ascii.eqb c "e") && negb (Ascii.eqb c "E").

(** A Number that [toFixed] writes in fixed notation: a zero, or a finite
    Number below 10^21 in magnitude. *)
Definition fixed_notation (x : JS.number) : bool :=
  match x with
  | S754_zero _ => true
  | S754_finite _ m e => negb (JS.at_least_1e21 m e)
  | _ => false
  end.

(** The sign [toFixed] writes. *)
Definition sign_text (x : JS.number) : string :=
  match x with
  | S754_finite true _ _ => "-"
  | _ => ""
  end.

(** ** Properties *)

(** *** The built-ins on known values *)

Example parseFloat_price :
  JS.parseFloat "23.50" = S754_finite false 6614661952700416 (-48).
Proof. vm_compute. reflexivity. Qed.

Example parseFloat_prefix :
  JS.parseFloat "  12.5 miles" = JS.parseFloat "12.5"
  /\ JS.parseFloat "1,234.50" = JS.of_Z 1
  /\ JS.parseFloat "$5" = JS.NaN
  /\ JS.parseFloat "-.5e1" = SFopp (JS.of_Z 5)
  /\ JS.parseFloat "1e400" = JS.Infinity.
Proof. vm_compute. repeat split; reflexivity. Qed.

Example parseInt_values :
  JS.parseInt "3" = Some 3
  /\ JS.parseInt " 42px" = Some 42
  /\ JS.parseInt "-7.9" = Some (-7)
  /\ JS.parseInt "0x1f" = Some 31
  /\ JS.parseInt "" = None
  /\ JS.parseInt "seven" = None.
Proof. vm_compute. repeat split; reflexivity. Qed.

Example toFixed_values :
  JS.toFixed (JS.parseFloat "4.7") 2 = "4.70"
  /\ JS.toFixed (JS.parseFloat "1.005") 2 = "1.00"
  /\ JS.toFixed (JS.parseFloat "0.005") 2 = "0.01"
  /\ JS.toFixed (JS.parseFloat "-0.001") 2 = "-0.00"
  /\ JS.toFixed (JS.parseFloat "12.34") 1 = "12.3"
  /\ JS.toFixed (JS.parseFloat "1e23") 2 = "1e+23"
  /\ JS.toFixed (JS.parseFloat "123456789012345678901234567890") 2
     = "1.2345678901234568e+29".
Proof. vm_compute. repeat split; reflexivity. Qed.

Example replace_first_only :
  JS.replace_first_empty "US$5$" "$" = "US5$"
  /\ JS.replace_first_empty "23.50" "$" = "23.50".
Proof. vm_compute. split; reflexivity. Qed.

Example phone_pattern_values :
  JS.matches "+15551234567" App.phone_pattern = true
  /\ JS.matches "+1555123456" App.phone_pattern = false
  /\ JS.matches "+1555123456789012" App.phone_pattern = false
  /\ JS.matches "+05551234567" App.phone_pattern = false
  /\ JS.matches "15551234567" App.phone_pattern = false
  /\ JS.matches " +15551234567" App.phone_pattern = false
  /\ JS.matches "+1555123456a" App.phone_pattern = false.
Proof. vm_compute. repeat split; reflexivity. Qed.

(** Splits a conjunction without touching what is under an arrow. *)
Ltac split_all :=
  repeat match goal with |- _ /\ _ => split end.

(** Closes a goal from a boolean comparison and its negation in [Z]. *)
Ltac lia_bool :=
  repeat match goal with
         | H : (_ <=? _) = true |- _ => apply Z.leb_le in H
         | H : (_ <=? _) = false |- _ => apply Z.leb_gt in H
         end;
  lia.

(** *** Comparing prices *)



(** Whatever the dropoff field holds, an empty pickup field stops the submit
    at its first check. *)
Lemma compare_empty_pickup (backend : Backend) (w : World App.State) :
  App.pickup (state w) = "" ->
  let w' := fire (App.comparePrices backend) w in
  App.errors (state w')
    = {| App.Errors.pickup := Some "Please enter a pickup location";
         App.Errors.dropoff := None |}
  /\ requests w' = requests w
  /\ App.estimates (state w') = App.estimates (state w)
  /\ App.loading (state w') = App.loading (state w).
Proof.
  intros Hp. unfold fire, App.comparePrices, bind.
  rewrite Hp. cbn. repeat split; reflexivity.
Qed.

(** C4, as the code has it: submitting with pickup and dropoff both empty
    reports the pickup field only, "Please enter a pickup location"; the
    dropoff entry of the error state stays absent, and no request is
    issued. *)
Theorem compare_both_empty_reports_pickup_only
  (backend : Backend) (w : World App.State) :
  App.pickup (state w) = "" ->
  App.dropoff (state w) = "" ->
  let w' := fire (App.comparePrices backend) w in
  App.Errors.pickup (App.errors (state w'))
    = Some "Please enter a pickup location"
  /\ App.Errors.dropoff (App.errors (state w')) = None
  /\ requests w' = requests w.
Proof.
  intros Hp _.
  destruct (compare_empty_pickup backend w Hp) as (He & Hr & _).
  cbv zeta. rewrite He. repeat split; assumption.
Qed.

Lemma compare_both_empty_reports_pickup_only_witness :
  let w' := fire (App.comparePrices Examples.online) App.start in
  App.Errors.pickup (App.errors (state w'))
    = Some "Please enter a pickup location"
  /\ App.Errors.dropoff (App.errors (state w')) = None
  /\ requests w' = [].
Proof.
  apply (compare_both_empty_reports_pickup_only Examples.online App.start);
    reflexivity.
Defined.

(** C4 as the claim words it fails: with both fields empty the error state
    after the submit does not report both fields. *)
Lemma compare_both_empty_not_both_reported :
  ~ Spec.both_fields_reported
      (App.errors (state (fire (App.comparePrices Examples.online)
                               App.start))).
Proof.
  intros [_ Hd]. apply Hd. reflexivity.
Qed.

(** C5: submitting with an empty pickup and a non-empty dropoff puts a
    message on the pickup field only, and issues no request. *)
Theorem compare_empty_pickup_only
  (backend : Backend) (w : World App.State) :
  App.pickup (state w) = "" ->
  App.dropoff (state w) <> "" ->
  let w' := fire (App.comparePrices backend) w in
  App.Errors.pickup (App.errors (state w'))
    = Some "Please enter a pickup location"
  /\ App.Errors.dropoff (App.errors (state w')) = None
  /\ requests w' = requests w.
Proof.
  intros Hp _.
  destruct (compare_empty_pickup backend w Hp) as (He & Hr & _).
  cbv zeta. rewrite He. repeat split; assumption.
Qed.

Lemma compare_empty_pickup_only_witness :
  let w := Examples.filled "" "Brooklyn" "" [] in
  let w' := fire (App.comparePrices Examples.online) w in
  App.Errors.pickup (App.errors (state w'))
    = Some "Please enter a pickup location"
  /\ App.Errors.dropoff (App.errors (state w')) = None
  /\ requests w' = [].
Proof.
  apply (compare_empty_pickup_only Examples.online
           (Examples.filled "" "Brooklyn" "" [])).
  - reflexivity.
  - simpl; discriminate.
Defined.

(** *** Durations *)




(** *** City suggestions *)

(** [handleCitySearch] does not look at its [type] argument. *)
Lemma handleCitySearch_ignores_type
  (backend : Backend) (query : string) (ty ty' : FlightComparison.FieldType) :
  FlightComparison.handleCitySearch backend query ty
  = FlightComparison.handleCitySearch backend query ty'.
Proof. reflexivity. Qed.

(** C10: in the flight flow a query of at least two characters typed in
    either field, answered with success, replaces the one option list
    [cityOptions], which is the list both the origin and the destination
    field display. *)
Theorem city_options_shared
  (backend : Backend) (w : World FlightComparison.State)
  (type : FlightComparison.FieldType) (query : string) (data : list string) :
  2 <= JS.length query ->
  cities_autocomplete backend query = Resolved data ->
  let w' := fire (FlightComparison.onInputChange backend type query) w in
  FlightComparison.origin_options (state w') = data
  /\ FlightComparison.destination_options (state w') = data
  /\ FlightComparison.cityOptions (state w') = data.
Proof.
  intros Hlen Hok.
  apply Z.leb_le in Hlen.
  destruct type;
    unfold fire, FlightComparison.onInputChange,
      FlightComparison.onOriginInputChange,
      FlightComparison.onDestinationInputChange,
      FlightComparison.handleCitySearch, bind, await;
    cbn; rewrite Hlen, Hok; cbn; repeat split; reflexivity.
Qed.

Lemma city_options_shared_witness :
  let w' := fire (FlightComparison.onInputChange Examples.online
                    FlightComparison.destination_field "Br")
                 Examples.flight_start in
  FlightComparison.origin_options (state w') = ["Manhattan"; "Brooklyn"]
  /\ FlightComparison.destination_options (state w')
     = ["Manhattan"; "Brooklyn"]
  /\ FlightComparison.cityOptions (state w') = ["Manhattan"; "Brooklyn"].
Proof.
  apply (city_options_shared Examples.online Examples.flight_start
           FlightComparison.destination_field "Br"
           ["Manhattan"; "Brooklyn"]).
  - unfold JS.length; simpl; lia.
  - reflexivity.
Defined.

(** C2, as the code has it.  A transport error of the city-suggestion
    request is only logged in the cab flow: the pickup and the dropoff field
    leave the snackbar, the field errors, the estimates and the loading flag
    as they were.  In the flight flow the error is logged and the error
    notice "Failed to fetch city suggestions. Please try again." is raised;
    the estimates, the loading flag and the option list stay as they
    were. *)
Theorem suggestion_failure_effects
  (backend : Backend) (query reason : string)
  (w : World App.State) (fw : World FlightComparison.State)
  (type : FlightComparison.FieldType) :
  cities_autocomplete backend query = Rejected reason ->
  (let w' := fire (App.onPickupInputChange backend query) w in
   App.snackbar (state w') = App.snackbar (state w)
   /\ App.errors (state w') = App.errors (state w)
   /\ App.estimates (state w') = App.estimates (state w)
   /\ App.loading (state w') = App.loading (state w)
   /\ (1 <= JS.length query ->
       console w'
       = (console w ++ ["Failed to fetch city suggestions:"])%list))
  /\ (let w' := fire (App.onDropoffInputChange backend query) w in
      App.snackbar (state w') = App.snackbar (state w)
      /\ App.errors (state w') = App.errors (state w)
      /\ App.estimates (state w') = App.estimates (state w)
      /\ App.loading (state w') = App.loading (state w)
      /\ (1 <= JS.length query ->
          console w'
          = (console w ++ ["Failed to fetch city suggestions:"])%list))
  /\ (let fw' := fire (FlightComparison.onInputChange backend type query)
                      fw in
      FlightComparison.estimates (state fw')
      = FlightComparison.estimates (state fw)
      /\ FlightComparison.loading (state fw')
         = FlightComparison.loading (state fw)
      /\ FlightComparison.cityOptions (state fw')
         = FlightComparison.cityOptions (state fw)
      /\ (2 <= JS.length query ->
          FlightComparison.snackbar (state fw')
          = FlightComparison.suggestions_failed_notice
          /\ console fw'
             = (console fw ++ ["Failed to fetch city suggestions:"])%list)
      /\ (JS.length query < 2 ->
          FlightComparison.snackbar (state fw')
          = FlightComparison.snackbar (state fw))).
Proof.
  intros Hrej.
  split; [| split].
  - unfold fire, App.onPickupInputChange, bind, await. cbn.
    destruct (1 <=? JS.length query) eqn:E; cbn; rewrite ?Hrej; cbn;
      split_all; try reflexivity; intros H; lia_bool.
  - unfold fire, App.onDropoffInputChange, bind, await. cbn.
    destruct (1 <=? JS.length query) eqn:E; cbn; rewrite ?Hrej; cbn;
      split_all; try reflexivity; intros H; lia_bool.
  - destruct type;
      unfold fire, FlightComparison.onInputChange,
        FlightComparison.onOriginInputChange,
        FlightComparison.onDestinationInputChange,
        FlightComparison.handleCitySearch, bind, await; cbn;
      destruct (2 <=? JS.length query) eqn:E; cbn; rewrite ?Hrej; cbn;
      split_all; try reflexivity; intros H; try split;
      try reflexivity; lia_bool.
Qed.

Lemma suggestion_failure_effects_witness :
  App.snackbar
    (state (fire (App.onPickupInputChange Examples.offline "Br")
                 App.start))
  = App.snackbar (state App.start)
  /\ FlightComparison.snackbar
       (state (fire (FlightComparison.onInputChange Examples.offline
                       FlightComparison.origin_field "Br")
                    Examples.flight_start))
     = FlightComparison.suggestions_failed_notice.
Proof.
  destruct (suggestion_failure_effects Examples.offline "Br" "Network Error"
              App.start Examples.flight_start FlightComparison.origin_field)
    as ((Hs & _) & _ & (_ & _ & _ & Hf & _)).
  - reflexivity.
  - split; [exact Hs |].
    apply Hf. unfold JS.length; simpl; lia.
Defined.

(** C2 as the claim words it fails in the flight flow: after a failed
    suggestion request the snackbar is no longer the one held before, it
    shows an error notice. *)
Lemma flight_suggestion_failure_raises_notice :
  let fw' := fire (FlightComparison.onInputChange Examples.offline
                     FlightComparison.origin_field "Br")
                  Examples.flight_start in
  FlightComparison.snackbar (state fw')
    <> FlightComparison.snackbar (state Examples.flight_start)
  /\ open (FlightComparison.snackbar (state fw')) = true
  /\ severity (FlightComparison.snackbar (state fw')) = error.
Proof.
  cbn. repeat split; try reflexivity. discriminate.
Qed.

(** *** Phone numbers *)

(** A pattern that begins with [^] matches at index 0 or nowhere. *)
Lemma search_anchored (r : JS.regex) (s : string) :
  JS.search_from (JS.RSeq JS.RBol r) false s = false.
Proof.
  induction s as [|a s IH]; cbn; [reflexivity | exact IH].
Qed.

Lemma digits_then_end (n : nat) (b : bool) (s : string) :
  JS.repeat_opt (JS.matcher JS.RDigit) n (JS.matcher JS.REol JS.accept) b s
  = Spec.all_digits s && (String.length s <=? n)%nat.
Proof.
  revert b s. induction n as [|n IH]; intros b s.
  - destruct s as [|a s]; cbn; [reflexivity|].
    rewrite Bool.andb_false_r. reflexivity.
  - destruct s as [|a s]; [reflexivity|].
    cbn -[Nat.leb]. rewrite IH. cbn.
    rewrite Bool.orb_false_r, Bool.andb_assoc. reflexivity.
Qed.

Lemma digits_between (lo extra : nat) (b : bool) (s : string) :
  JS.repeat_min (JS.matcher JS.RDigit) lo
    (JS.repeat_opt (JS.matcher JS.RDigit) extra
       (JS.matcher JS.REol JS.accept)) b s
  = Spec.all_digits s && (lo <=? String.length s)%nat
    && (String.length s <=? lo + extra)%nat.
Proof.
  revert b s. induction lo as [|lo IH]; intros b s.
  - cbn -[Nat.leb]. rewrite digits_then_end, Bool.andb_true_r. reflexivity.
  - destruct s as [|a s].
    + reflexivity.
    + cbn -[Nat.leb]. rewrite IH. cbn.
      rewrite !Bool.andb_assoc. reflexivity.
Qed.

Lemma phone_pattern_at_start (a d : ascii) (rest : string) :
  JS.matcher App.phone_pattern JS.accept true (String a (String d rest))
  = Ascii.eqb "+" a
    && (JS.in_range "1" "9" d
        && JS.repeat_min (JS.matcher JS.RDigit) 10
             (JS.repeat_opt (JS.matcher JS.RDigit) (14 - 10)
                (JS.matcher JS.REol JS.accept)) false rest).
Proof. reflexivity. Qed.

Lemma search_unfold (r : JS.regex) (b : bool) (a : ascii) (s : string) :
  JS.search_from r b (String a s)
  = JS.matcher r JS.accept b (String a s) || JS.search_from r false s.
Proof. reflexivity. Qed.

(** The pattern of the source accepts exactly the strings of E.164 shape. *)
Lemma phone_pattern_e164 (p : string) :
  JS.matches p App.phone_pattern = Spec.e164_shape p.
Proof.
  unfold JS.matches.
  destruct p as [|a p]; [reflexivity|].
  rewrite search_unfold.
  unfold App.phone_pattern at 2.
  rewrite search_anchored, Bool.orb_false_r.
  destruct p as [|d rest].
  - cbn. rewrite Bool.andb_false_r. reflexivity.
  - rewrite phone_pattern_at_start, digits_between.
    rewrite (Ascii.eqb_sym "+" a).
    unfold Spec.e164_shape.
    rewrite !Bool.andb_assoc. reflexivity.
Qed.

Lemma app_cons_neq {A : Type} (l r : list A) (x : A) :
  (l ++ x :: r)%list <> l.
Proof.
  intros H. apply (f_equal (@List.length A)) in H.
  rewrite List.length_app in H. cbn in H. lia.
Qed.

(** The two ways [trackRoute] goes: the request, or the notice. *)
Lemma trackRoute_cases
  (backend : Backend) (estimate : PriceEstimate.t) (w : World App.State) :
  let created := fire (App.trackRoute backend estimate) w in
  (Spec.e164_shape (App.phoneNumber (state w)) = true /\
   exists rest,
     requests created
     = (requests w
          ++ PostTrackRoute (App.track_route_body (state w) estimate)
          :: rest)%list)
  \/ (Spec.e164_shape (App.phoneNumber (state w)) = false /\
      App.snackbar (state created) = App.invalid_phone_notice /\
      requests created = requests w).
Proof.
  unfold fire, App.trackRoute.
  rewrite phone_pattern_e164.
  destruct (Spec.e164_shape (App.phoneNumber (state w))) eqn:E.
  - left. split; [reflexivity|]. unfold bind, await. cbn.
    destruct (track_route backend _) as [u|e]; cbn.
    + unfold App.fetchTrackedRoutes.
      destruct (JS.falsy (App.phoneNumber (state w))); cbn.
      * exists []. reflexivity.
      * unfold bind, await. cbn.
        destruct (tracked_routes backend _); cbn;
          rewrite <- List.app_assoc; eexists; reflexivity.
    + exists []. reflexivity.
  - right. cbn. repeat split; reflexivity.
Qed.

(** C1, as the code has it.  [trackRoute] issues its request if and only if
    the phone number has E.164 shape ([^\+[1-9]\d{10,14}$]), and otherwise
    shows the invalid-phone notice and issues nothing.  [fetchTrackedRoutes]
    does not test the shape: an empty phone number makes it do nothing (no
    request, no notice), and any other is sent, with a [+] put in front when
    it has none. *)
Theorem phone_validation
  (backend : Backend) (estimate : PriceEstimate.t) (w : World App.State) :
  let p := App.phoneNumber (state w) in
  let created := fire (App.trackRoute backend estimate) w in
  let listed := fire (App.fetchTrackedRoutes backend) w in
  (Spec.e164_shape p = true <->
   exists rest,
     requests created
     = (requests w
          ++ PostTrackRoute (App.track_route_body (state w) estimate)
          :: rest)%list)
  /\ (Spec.e164_shape p = true <-> requests created <> requests w)
  /\ (Spec.e164_shape p = false ->
      App.snackbar (state created) = App.invalid_phone_notice
      /\ requests created = requests w)
  /\ (p = "" -> listed = w)
  /\ (p <> "" ->
      requests listed
      = (requests w
           ++ [GetTrackedRoutes
                 (if JS.startsWith p "+" then p else "+" ++ p)])%list).
Proof.
  intros p created listed.
  pose proof (trackRoute_cases backend estimate w) as Hcases.
  cbv zeta in Hcases. fold p created in Hcases.
  split_all.
  - destruct Hcases as [[E H]|[E [_ H]]].
    + split; auto.
    + split; [congruence|]. intros [rest Hr]. rewrite H in Hr.
      symmetry in Hr. apply app_cons_neq in Hr. contradiction.
  - destruct Hcases as [[E [rest H]]|[E [_ H]]].
    + split; [|auto]. intros _. rewrite H. apply app_cons_neq.
    + split; [congruence|]. intros Hne. contradiction.
  - intros E. destruct Hcases as [[E' _]|[_ H]]; [congruence | exact H].
  - intros Hp. subst listed. unfold fire, App.fetchTrackedRoutes.
    fold p. rewrite Hp. cbn. destruct w; reflexivity.
  - intros Hp. subst listed. unfold fire, App.fetchTrackedRoutes.
    fold p. destruct p as [|a p']; [congruence|].
    cbn -[JS.startsWith]. unfold bind, await. cbn -[JS.startsWith].
    destruct (tracked_routes backend _); reflexivity.
Qed.

(** C1 as the claim words it fails for the list operation: a phone number
    that does not have E.164 shape is sent to the backend all the same, and
    no invalid-phone notice is shown. *)
Lemma list_sends_unvalidated_phone :
  let w := Examples.filled "Manhattan" "Brooklyn" "5551234567" [] in
  let listed := fire (App.fetchTrackedRoutes Examples.online) w in
  JS.matches "5551234567" App.phone_pattern = false
  /\ requests listed = [GetTrackedRoutes "+5551234567"]
  /\ App.snackbar (state listed) <> App.invalid_phone_notice.
Proof.
  cbn. repeat split; try reflexivity. discriminate.
Qed.

(** *** Passenger count *)

(** Clamping to 1..7 after [|| 1] is clamping the parsed integer, 1 standing
    in for an input that does not parse. *)
Lemma clamp_or_else (x : option Z) :
  Z.max 1 (Z.min 7 (JS.or_else x 1))
  = Z.min 7 (Z.max 1 (match x with Some n => n | None => 1 end)).
Proof.
  destruct x as [n|]; cbn; [|reflexivity].
  destruct (n =? 0) eqn:E; lia.
Qed.

Lemma onPassengerCountChange_stores (s : string) (w : World App.State) :
  App.passengerCount (state (fire (App.onPassengerCountChange s) w))
  = Spec.passenger_count_of s.
Proof.
  unfold Spec.passenger_count_of. rewrite <- clamp_or_else. reflexivity.
Qed.

Lemma count_invariant_start : count_invariant App.start.
Proof. split; [cbn; lia | constructor]. Qed.

Lemma count_invariant_intro (w w' : World App.State) (sent : list Request) :
  count_invariant w ->
  App.passengerCount (state w') = App.passengerCount (state w) ->
  requests w' = (requests w ++ sent)%list ->
  Forall carries_valid_count sent ->
  count_invariant w'.
Proof.
  intros [Hc Hr] Hc' Hr' Hs. split.
  - rewrite Hc'. exact Hc.
  - rewrite Hr'. apply Forall_app. split; assumption.
Qed.

Lemma fetchTrackedRoutes_sends (backend : Backend) (c : App.State)
      (w : World App.State) :
  let w' := snd (App.fetchTrackedRoutes backend c w) in
  App.passengerCount (state w') = App.passengerCount (state w)
  /\ exists sent, requests w' = (requests w ++ sent)%list
                  /\ Forall carries_valid_count sent.
Proof.
  unfold App.fetchTrackedRoutes.
  destruct (JS.falsy (App.phoneNumber c)); cbn.
  - split; [reflexivity|]. exists []. rewrite List.app_nil_r.
    split; [reflexivity | constructor].
  - unfold bind, await. cbn.
    destruct (tracked_routes backend _); cbn;
      (split; [reflexivity|]; eexists; split; [reflexivity|]);
      repeat constructor.
Qed.

Lemma count_invariant_fetch (backend : Backend) (c : App.State)
      (w : World App.State) :
  count_invariant w ->
  count_invariant (snd (App.fetchTrackedRoutes backend c w)).
Proof.
  intros Hw.
  destruct (fetchTrackedRoutes_sends backend c w) as (Hc & sent & Hr & Hs).
  eapply count_invariant_intro; eassumption.
Qed.

Lemma count_invariant_update (f : App.State -> App.State)
      (w : World App.State) :
  count_invariant w ->
  1 <= App.passengerCount (f (state w)) <= 7 ->
  count_invariant (snd (update f w)).
Proof.
  intros [_ Hr] Hc. split; assumption.
Qed.

Lemma count_invariant_step (backend : Backend) (ev : App.Event)
      (w : World App.State) :
  count_invariant w -> count_invariant (App.step backend ev w).
Proof.
  intros Hw. pose proof Hw as [Hc Hr].
  destruct ev; unfold App.step.
  - (* TabChange *) apply count_invariant_update; assumption.
  - (* PickupInput *)
    unfold fire, App.onPickupInputChange, bind, await. cbn.
    destruct (1 <=? JS.length newValue); cbn.
    + destruct (cities_autocomplete backend newValue); cbn;
        (split; [exact Hc | cbn; apply Forall_app; split;
                            [exact Hr | repeat constructor]]).
    + split; assumption.
  - (* DropoffInput *)
    unfold fire, App.onDropoffInputChange, bind, await. cbn.
    destruct (1 <=? JS.length newValue); cbn.
    + destruct (cities_autocomplete backend newValue); cbn;
        (split; [exact Hc | cbn; apply Forall_app; split;
                            [exact Hr | repeat constructor]]).
    + split; assumption.
  - (* PassengerCountInput *)
    split; [| exact Hr].
    rewrite onPassengerCountChange_stores.
    unfold Spec.passenger_count_of. lia.
  - (* PhoneNumberInput *)
    assert (H1 : count_invariant (fire (App.onPhoneNumberChange value) w))
      by (split; assumption).
    destruct (String.eqb value (App.phoneNumber (state w))); [exact H1|].
    unfold fire at 1, App.tracked_routes_effect.
    destruct (negb _ && _); [apply count_invariant_fetch | ]; exact H1.
  - (* TargetPriceInput *) apply count_invariant_update; assumption.
  - (* ClickComparePrices *)
    unfold fire, App.comparePrices, bind, await. cbn.
    destruct (JS.falsy (App.pickup (state w))); cbn; [split; assumption|].
    destruct (JS.falsy (App.dropoff (state w))); cbn; [split; assumption|].
    destruct (compare_prices backend _); cbn;
      (split; [exact Hc | cbn; apply Forall_app; split;
                          [exact Hr | repeat constructor; cbn; lia]]).
  - (* ClickToggleTrackedRoutes *)
    assert (H1 : count_invariant (fire App.onToggleTrackedRoutes w))
      by (split; assumption).
    unfold fire at 1, App.tracked_routes_effect.
    destruct (negb _ && _); [apply count_invariant_fetch | ]; exact H1.
  - (* ClickTrackPrice *)
    unfold fire, App.trackRoute.
    destruct (negb _); [split; assumption|].
    unfold bind, await. cbn.
    assert (H1 : forall snack,
      count_invariant
        {| state := state (snd (App.setSnackbar snack w));
           requests := (requests w
             ++ [PostTrackRoute (App.track_route_body (state w) estimate)])%list;
           console := console w |}).
    { intros snack. split; [exact Hc|]. cbn. apply Forall_app.
      split; [exact Hr | repeat constructor; cbn; lia]. }
    destruct (track_route backend _); cbn.
    + apply count_invariant_fetch. apply (H1 App.tracking_started_notice).
    + apply (H1 App.tracking_failed_notice).
  - (* ClickDelete *)
    unfold fire, App.deleteTrackedRoute, bind, await. cbn.
    assert (H1 : forall snack,
      count_invariant
        {| state := state (snd (App.setSnackbar snack w));
           requests := (requests w ++ [DeleteTrackedRoute routeId])%list;
           console := console w |}).
    { intros snack. split; [exact Hc|]. cbn. apply Forall_app.
      split; [exact Hr | repeat constructor]. }
    destruct (delete_tracked_route backend _); cbn.
    + apply count_invariant_fetch. apply (H1 App.route_deleted_notice).
    + apply (H1 App.delete_failed_notice).
  - (* CloseSnackbar *) apply count_invariant_update; assumption.
Qed.

Lemma count_invariant_run (trace : list (Backend * App.Event))
      (w : World App.State) :
  count_invariant w -> count_invariant (App.run trace w).
Proof.
  revert w. induction trace as [|[b ev] rest IH]; intros w Hw; cbn.
  - exact Hw.
  - apply IH, count_invariant_step, Hw.
Qed.

(** C9: typing [s] in the passenger-count field stores
    [min(7, max(1, parseInt(s)))], an input that does not parse (the empty
    one too) counting as 1; and whatever the user did since the first
    render, the body of every compare-prices request carries a passenger
    count from 1 to 7. *)
Theorem passenger_count_clamped
  (s : string) (w : World App.State)
  (trace : list (Backend * App.Event)) (body : ComparePricesBody.t) :
  In (PostComparePrices body) (requests (App.run trace App.start)) ->
  App.passengerCount (state (fire (App.onPassengerCountChange s) w))
    = Spec.passenger_count_of s
  /\ (JS.parseInt s = None ->
      App.passengerCount (state (fire (App.onPassengerCountChange s) w)) = 1)
  /\ 1 <= ComparePricesBody.passenger_count body <= 7.
Proof.
  intros Hin. split; [| split].
  - apply onPassengerCountChange_stores.
  - intros Hnone. rewrite onPassengerCountChange_stores.
    unfold Spec.passenger_count_of. rewrite Hnone. reflexivity.
  - destruct (count_invariant_run trace App.start count_invariant_start)
      as [_ Hall].
    rewrite Forall_forall in Hall. exact (Hall _ Hin).
Qed.

Lemma passenger_count_clamped_witness :
  let trace :=
    [(Examples.online, App.PassengerCountInput "12");
     (Examples.online, App.PickupInput "Manhattan");
     (Examples.offline, App.DropoffInput "Brooklyn");
     (Examples.online, App.ClickComparePrices)] in
  let body :=
    {| ComparePricesBody.pickup_address := "Manhattan";
       ComparePricesBody.dropoff_address := "Brooklyn";
       ComparePricesBody.passenger_count := 7 |} in
  In (PostComparePrices body) (requests (App.run trace App.start))
  /\ App.passengerCount
       (state (fire (App.onPassengerCountChange "-3") App.start)) = 1
  /\ 1 <= ComparePricesBody.passenger_count body <= 7.
Proof.
  cbv zeta.
  match goal with
  | |- In (PostComparePrices ?b) (requests (App.run ?t _)) /\ _ =>
      assert (Hin : In (PostComparePrices b)
                       (requests (App.run t App.start)))
        by (vm_compute; tauto);
      destruct (passenger_count_clamped "-3" App.start t b Hin)
        as (Hs & _ & Hb)
  end.
  split; [exact Hin | split; [rewrite Hs; reflexivity | exact Hb]].
Defined.

(** *** Prices *)

Lemma digit_not (a c : ascii) :
  JS.is_digit a = true -> JS.is_digit c = false -> Ascii.eqb a c = false.
Proof.
  intros Ha Hc. destruct (Ascii.eqb_spec a c) as [->|]; congruence.
Qed.

Lemma digit_not_white (a : ascii) :
  JS.is_digit a = true -> JS.is_white a = false.
Proof.
  unfold JS.is_digit, JS.is_white. intros H.
  apply Bool.andb_true_iff in H. destruct H as [H1 H2].
  apply Z.leb_le in H1. apply Z.leb_le in H2.
  repeat rewrite Bool.orb_false_iff. repeat split.
  - apply Bool.andb_false_iff. right. apply Z.leb_gt. lia.
  - apply Z.eqb_neq. lia.
  - apply Z.eqb_neq. lia.
Qed.

(** Scanning digits stops where the digits stop. *)
Lemma span_digits_app (d r : string) :
  Spec.all_digits d = true ->
  match r with
  | EmptyString => True
  | String c _ => JS.is_digit c = false
  end ->
  JS.span_digits (d ++ r) = (d, r).
Proof.
  intros Hd Hr. induction d as [|a d IH]; cbn in *.
  - destruct r as [|c r]; [reflexivity|]. cbn. rewrite Hr. reflexivity.
  - apply Bool.andb_true_iff in Hd. destruct Hd as [Ha Hd].
    rewrite Ha, (IH Hd). reflexivity.
Qed.



(** Taking the dollar sign off the front of a price. *)
Lemma replace_leading_dollar (s : string) :
  JS.replace_first_empty ("$" ++ s) "$" = s.
Proof. destruct s; reflexivity. Qed.



(** Dividing by a zero never gives a finite Number. *)
Lemma div_by_zero (x : JS.number) (s : bool) :
  JS.div x (S754_zero s)
  = match x with
    | S754_nan | S754_zero _ => JS.NaN
    | S754_infinity sx | S754_finite sx _ _ => S754_infinity (xorb sx s)
    end.
Proof. destruct x; reflexivity. Qed.

(** C6, as the code has it.  The rate shown on a card is the parsed price
    (the price string without its first character, read by [parseFloat])
    divided by the distance, as Numbers, with two decimals.  A distance of
    zero is divided by like any other: the card then shows "Infinity" or
    "-Infinity" when the parsed price is not zero, and "NaN" when it is zero
    or does not parse. *)
Theorem rate_display_divides (estimate : PriceEstimate.t) :
  let price :=
    JS.parseFloat (JS.slice1 (PriceEstimate.price_estimate estimate)) in
  App.rate_display estimate
    = JS.toFixed (JS.div price (PriceEstimate.distance estimate)) 2
  /\ (forall s : bool,
      PriceEstimate.distance estimate = S754_zero s ->
      App.rate_per_mile estimate
      = match price with
        | S754_nan | S754_zero _ => JS.NaN
        | S754_infinity sx | S754_finite sx _ _ => S754_infinity (xorb sx s)
        end
      /\ App.rate_display estimate
         = match price with
           | S754_nan | S754_zero _ => "NaN"
           | S754_infinity sx | S754_finite sx _ _ =>
               if xorb sx s then "-Infinity" else "Infinity"
           end).
Proof.
  intros price. split; [reflexivity|].
  intros s Hd.
  assert (Hrate :
    App.rate_per_mile estimate
    = match price with
      | S754_nan | S754_zero _ => JS.NaN
      | S754_infinity sx | S754_finite sx _ _ => S754_infinity (xorb sx s)
      end).
  { unfold App.rate_per_mile. fold price. rewrite Hd. apply div_by_zero. }
  split; [exact Hrate|].
  unfold App.rate_display. rewrite Hrate.
  destruct price as [sx|sx| |sx m e]; try reflexivity;
    destruct (xorb sx s); reflexivity.
Qed.

Lemma rate_display_divides_witness :
  App.rate_display Examples.uber_nowhere = "Infinity"
  /\ App.rate_line Examples.uber_nowhere = "Rate: $Infinity/mile".
Proof.
  destruct (rate_display_divides Examples.uber_nowhere) as [_ H0].
  destruct (H0 false eq_refl) as [_ H].
  split.
  - rewrite H. vm_compute. reflexivity.
  - unfold App.rate_line. rewrite H. vm_compute. reflexivity.
Defined.

(** C6 as the claim words it fails: on two cards of distance zero the rate
    is what the division gives, "Infinity" for a price of $23.50 and "NaN"
    for a price of $0.00, so no one value marks the rate as unavailable. *)
Lemma rate_display_zero_distance_not_marked :
  App.rate_display Examples.uber_nowhere
    = JS.toFixed (JS.div (JS.parseFloat "23.50") (S754_zero false)) 2
  /\ App.rate_display Examples.uber_nowhere = "Infinity"
  /\ App.rate_display Examples.free_nowhere = "NaN"
  /\ ~ Spec.unavailable_marker App.rate_display
         [Examples.uber_nowhere; Examples.free_nowhere].
Proof.
  assert (H1 : App.rate_display Examples.uber_nowhere = "Infinity")
    by (vm_compute; reflexivity).
  assert (H2 : App.rate_display Examples.free_nowhere = "NaN")
    by (vm_compute; reflexivity).
  split; [| split; [exact H1 | split; [exact H2 |]]].
  - rewrite H1. vm_compute. reflexivity.
  - intros [u Hu].
    pose proof (Forall_inv Hu) as Hu1.
    pose proof (Forall_inv (Forall_inv_tail Hu)) as Hu2.
    cbv beta in Hu1, Hu2.
    rewrite H1 in Hu1. rewrite H2 in Hu2. subst u. discriminate.
Qed.

(** The rate of an ordinary card: $23.50 over 5 miles. *)
Example rate_display_uber : App.rate_line Examples.uber = "Rate: $4.70/mile".
Proof. vm_compute. reflexivity. Qed.

(** ** Further properties of the cab flow *)

(** *** Tracked routes *)



(** X2: listing tracked routes.  A successful answer replaces the listed
    routes and raises no notice; a failed one logs to the console, shows
    the notice that asks for the E.164 format, and leaves the routes listed
    before as they were. *)
Theorem list_outcomes (backend : Backend) (w : World App.State) :
  App.phoneNumber (state w) <> "" ->
  let p := App.phoneNumber (state w) in
  let formattedNumber := if JS.startsWith p "+" then p else "+" ++ p in
  let w' := fire (App.fetchTrackedRoutes backend) w in
  match tracked_routes backend formattedNumber with
  | Resolved data =>
      App.trackedRoutes (state w') = data
      /\ App.snackbar (state w') = App.snackbar (state w)
      /\ console w' = console w
  | Rejected _ =>
      App.trackedRoutes (state w') = App.trackedRoutes (state w)
      /\ App.snackbar (state w') = App.fetch_failed_notice
      /\ console w'
         = (console w ++ ["Failed to fetch tracked routes:"])%list
  end.
Proof.
  intros Hp. cbv zeta.
  unfold fire, App.fetchTrackedRoutes.
  destruct (App.phoneNumber (state w)) as [|a p'] eqn:Ep; [congruence|].
  cbn -[JS.startsWith]. unfold bind, await. cbn -[JS.startsWith].
  destruct (tracked_routes backend _); cbn; split_all; reflexivity.
Qed.

Lemma list_outcomes_witness :
  let w := Examples.tracking "+15551234567" [Examples.commute] in
  let w' := fire (App.fetchTrackedRoutes Examples.offline) w in
  App.trackedRoutes (state w') = [Examples.commute]
  /\ App.snackbar (state w') = App.fetch_failed_notice.
Proof.
  pose proof (list_outcomes Examples.offline
                (Examples.tracking "+15551234567" [Examples.commute])) as H.
  cbv zeta in H. cbn in H.
  destruct H as (Hr & Hs & _); [discriminate|].
  split; [exact Hr | exact Hs].
Defined.

(** A phone number of E.164 shape is sent as it is: it is not empty and
    already starts with [+]. *)
Lemma e164_needs_no_prefix (p : string) :
  Spec.e164_shape p = true -> JS.falsy p = false /\ JS.startsWith p "+" = true.
Proof.
  destruct p as [|a [|d rest]]; cbn; try discriminate.
  intros H. repeat (apply Bool.andb_true_iff in H; destruct H as [H ?]).
  rewrite H. split; reflexivity.
Qed.

(** X3: creating a tracked route.  With a valid phone number and a backend
    that accepts the route, exactly two requests go out, the POST and then
    the GET of the list for the very same phone number.  The success notice
    stays when the list arrives, and is replaced by the fetch-failure notice
    when the list request fails. *)
Theorem create_then_list
  (backend : Backend) (estimate : PriceEstimate.t) (w : World App.State) :
  Spec.e164_shape (App.phoneNumber (state w)) = true ->
  track_route backend (App.track_route_body (state w) estimate)
    = Resolved tt ->
  let p := App.phoneNumber (state w) in
  let w' := fire (App.trackRoute backend estimate) w in
  requests w'
  = (requests w
       ++ [PostTrackRoute (App.track_route_body (state w) estimate);
           GetTrackedRoutes p])%list
  /\ match tracked_routes backend p with
     | Resolved data =>
         App.snackbar (state w') = App.tracking_started_notice
         /\ App.trackedRoutes (state w') = data
     | Rejected _ =>
         App.snackbar (state w') = App.fetch_failed_notice
         /\ App.trackedRoutes (state w') = App.trackedRoutes (state w)
     end.
Proof.
  intros Hshape Hok p w'. subst w'.
  destruct (e164_needs_no_prefix _ Hshape) as [Hne Hplus].
  unfold fire, App.trackRoute. rewrite phone_pattern_e164, Hshape.
  cbn -[JS.startsWith]. unfold bind, await. cbn -[JS.startsWith].
  rewrite Hok. cbn -[JS.startsWith].
  unfold App.fetchTrackedRoutes. cbn -[JS.startsWith].
  rewrite Hne, Hplus. unfold bind, await. cbn. fold p.
  destruct (tracked_routes backend p); cbn; rewrite <- List.app_assoc;
    split_all; reflexivity.
Qed.

Lemma create_then_list_witness :
  let w := Examples.tracking "+15551234567" [Examples.commute] in
  let w' := fire (App.trackRoute Examples.lists_nothing Examples.uber) w in
  requests w'
  = [PostTrackRoute (App.track_route_body (state w) Examples.uber);
     GetTrackedRoutes "+15551234567"]
  /\ App.snackbar (state w') = App.fetch_failed_notice
  /\ App.trackedRoutes (state w') = [Examples.commute].
Proof.
  pose proof (create_then_list Examples.lists_nothing Examples.uber
                (Examples.tracking "+15551234567" [Examples.commute])
                eq_refl eq_refl) as H.
  cbv zeta in H. cbn in H.
  destruct H as (Hr & Hs & Ht).
  split; [exact Hr | split; [exact Hs | exact Ht]].
Defined.

(** X4: when the POST of a new tracked route fails, the notice "Failed to
    start route tracking" is shown, the list is not fetched, and the
    routes listed before stay. *)
Theorem create_failure
  (backend : Backend) (estimate : PriceEstimate.t) (w : World App.State)
  (reason : string) :
  Spec.e164_shape (App.phoneNumber (state w)) = true ->
  track_route backend (App.track_route_body (state w) estimate)
    = Rejected reason ->
  let w' := fire (App.trackRoute backend estimate) w in
  requests w'
  = (requests w
       ++ [PostTrackRoute (App.track_route_body (state w) estimate)])%list
  /\ App.snackbar (state w') = App.tracking_failed_notice
  /\ App.trackedRoutes (state w') = App.trackedRoutes (state w).
Proof.
  intros Hshape Hrej w'. subst w'.
  unfold fire, App.trackRoute. rewrite phone_pattern_e164, Hshape.
  cbn. unfold bind, await. cbn. rewrite Hrej. cbn.
  split_all; reflexivity.
Qed.

Lemma create_failure_witness :
  let w := Examples.tracking "+15551234567" [Examples.commute] in
  let w' := fire (App.trackRoute Examples.offline Examples.uber) w in
  App.snackbar (state w') = App.tracking_failed_notice
  /\ App.trackedRoutes (state w') = [Examples.commute].
Proof.
  destruct (create_failure Examples.offline Examples.uber
              (Examples.tracking "+15551234567" [Examples.commute])
              "Network Error" eq_refl eq_refl) as (_ & Hs & Ht).
  split; [exact Hs | exact Ht].
Defined.

(** *** Comparing prices, the other outcomes *)

(** X5: a compare-prices request that succeeds replaces the estimates with
    the answer, an empty answer too, raises no notice and leaves no field
    error. *)
Theorem compare_success_replaces_estimates
  (backend : Backend) (w : World App.State) (data : list PriceEstimate.t) :
  App.pickup (state w) <> "" ->
  App.dropoff (state w) <> "" ->
  compare_prices backend (App.compare_prices_body (state w))
    = Resolved data ->
  let w' := fire (App.comparePrices backend) w in
  App.estimates (state w') = data
  /\ App.snackbar (state w') = App.snackbar (state w)
  /\ App.errors (state w') = App.Errors.empty
  /\ requests w'
     = (requests w
          ++ [PostComparePrices (App.compare_prices_body (state w))])%list.
Proof.
  intros Hp Hd Hok.
  unfold fire, App.comparePrices, bind, await.
  destruct (App.pickup (state w)) eqn:Ep; [congruence|].
  destruct (App.dropoff (state w)) eqn:Ed; [congruence|].
  cbn. rewrite Hok. cbn. split_all; reflexivity.
Qed.

Lemma compare_success_replaces_estimates_witness :
  let w := Examples.filled "Manhattan" "Brooklyn" "" [Examples.uber] in
  let w' := fire (App.comparePrices Examples.lists_nothing) w in
  App.estimates (state w') = []
  /\ open (App.snackbar (state w')) = false.
Proof.
  destruct (compare_success_replaces_estimates Examples.lists_nothing
              (Examples.filled "Manhattan" "Brooklyn" "" [Examples.uber])
              []) as (He & Hs & _).
  - simpl; discriminate.
  - simpl; discriminate.
  - reflexivity.
  - split; [exact He | rewrite Hs; reflexivity].
Defined.

(** X6: whatever the backend answers and whatever the form holds, the busy
    flag is down when [comparePrices] has run through a submit that passed
    the checks, and a submit that failed them leaves it as it was. *)
Theorem compare_releases_loading (backend : Backend) (w : World App.State) :
  let w' := fire (App.comparePrices backend) w in
  App.loading (state w')
  = if JS.falsy (App.pickup (state w)) || JS.falsy (App.dropoff (state w))
    then App.loading (state w)
    else false.
Proof.
  unfold fire, App.comparePrices, bind, await.
  destruct (JS.falsy (App.pickup (state w))); [reflexivity|].
  destruct (JS.falsy (App.dropoff (state w))); [reflexivity|].
  cbn. destruct (compare_prices backend _); reflexivity.
Qed.

(** *** What is never sent *)

Lemma falsy_false (s : string) : JS.falsy s = false -> s <> "".
Proof. destruct s; [discriminate | intros _; discriminate]. Qed.

Lemma length_positive (s : string) : (1 <=? JS.length s) = true -> s <> "".
Proof. destruct s; [discriminate | intros _; discriminate]. Qed.

Lemma formatted_starts_with_plus (p : string) :
  JS.startsWith (if JS.startsWith p "+" then p else "+" ++ p) "+" = true.
Proof.
  destruct (JS.startsWith p "+") eqn:E; [exact E | reflexivity].
Qed.

Lemma checked_invariant_start : checked_invariant App.start.
Proof. split; [constructor | left; reflexivity]. Qed.

Lemma checked_fetch (backend : Backend) (c : App.State)
      (w : World App.State) :
  checked_invariant w ->
  checked_invariant (snd (App.fetchTrackedRoutes backend c w)).
Proof.
  intros [Hr He]. unfold App.fetchTrackedRoutes.
  destruct (JS.falsy (App.phoneNumber c)); [split; assumption|].
  unfold bind, await. cbn -[JS.startsWith].
  destruct (tracked_routes backend _); cbn -[JS.startsWith];
    (split; [| exact He]); apply Forall_app; (split; [exact Hr|]);
    repeat constructor; apply formatted_starts_with_plus.
Qed.

Lemma checked_update (f : App.State -> App.State) (w : World App.State) :
  checked_invariant w ->
  App.errors (f (state w)) = App.errors (state w) ->
  checked_invariant (snd (update f w)).
Proof.
  intros [Hr He] Hf. split; [exact Hr | cbn; rewrite Hf; exact He].
Qed.

Lemma checked_sent (w : World App.State) (s : App.State) (r : Request)
      (out : list string) :
  checked_invariant w ->
  App.errors s = App.errors (state w) ->
  request_checked r ->
  checked_invariant
    {| state := s; requests := (requests w ++ [r])%list; console := out |}.
Proof.
  intros [Hr He] Hs Hc. split; cbn.
  - apply Forall_app. split; [exact Hr | repeat constructor; exact Hc].
  - rewrite Hs. exact He.
Qed.

Lemma checked_invariant_step (backend : Backend) (ev : App.Event)
      (w : World App.State) :
  checked_invariant w -> checked_invariant (App.step backend ev w).
Proof.
  intros Hw. pose proof Hw as [Hr He].
  destruct ev; unfold App.step.
  - (* TabChange *) apply checked_update; [exact Hw | reflexivity].
  - (* PickupInput *)
    unfold fire, App.onPickupInputChange, bind, await. cbn.
    destruct (1 <=? JS.length newValue) eqn:E; cbn.
    + apply length_positive in E.
      destruct (cities_autocomplete backend newValue); cbn;
        apply checked_sent; auto.
    + split; assumption.
  - (* DropoffInput *)
    unfold fire, App.onDropoffInputChange, bind, await. cbn.
    destruct (1 <=? JS.length newValue) eqn:E; cbn.
    + apply length_positive in E.
      destruct (cities_autocomplete backend newValue); cbn;
        apply checked_sent; auto.
    + split; assumption.
  - (* PassengerCountInput *) apply checked_update; [exact Hw | reflexivity].
  - (* PhoneNumberInput *)
    assert (H1 : checked_invariant (fire (App.onPhoneNumberChange value) w))
      by (apply checked_update; [exact Hw | reflexivity]).
    destruct (String.eqb value (App.phoneNumber (state w))); [exact H1|].
    unfold fire at 1, App.tracked_routes_effect.
    destruct (negb _ && _); [apply checked_fetch | ]; exact H1.
  - (* TargetPriceInput *) apply checked_update; [exact Hw | reflexivity].
  - (* ClickComparePrices *)
    unfold fire, App.comparePrices, bind, await. cbn.
    destruct (JS.falsy (App.pickup (state w))) eqn:Ep; cbn.
    { split; [exact Hr | right; reflexivity]. }
    destruct (JS.falsy (App.dropoff (state w))) eqn:Ed; cbn.
    { split; [exact Hr | left; reflexivity]. }
    apply falsy_false in Ep. apply falsy_false in Ed.
    destruct (compare_prices backend _); cbn;
      (split; cbn; [| left; reflexivity]);
      apply Forall_app; (split; [exact Hr|]);
      repeat constructor; assumption.
  - (* ClickToggleTrackedRoutes *)
    assert (H1 : checked_invariant (fire App.onToggleTrackedRoutes w))
      by (apply checked_update; [exact Hw | reflexivity]).
    unfold fire at 1, App.tracked_routes_effect.
    destruct (negb _ && _); [apply checked_fetch | ]; exact H1.
  - (* ClickTrackPrice *)
    unfold fire, App.trackRoute. rewrite phone_pattern_e164.
    destruct (Spec.e164_shape (App.phoneNumber (state w))) eqn:E; cbn.
    + unfold bind, await. cbn.
      destruct (track_route backend _); cbn.
      * apply checked_fetch. apply checked_sent; auto.
      * apply checked_sent; auto.
    + split; assumption.
  - (* ClickDelete *)
    unfold fire, App.deleteTrackedRoute, bind, await. cbn.
    destruct (delete_tracked_route backend _); cbn.
    + apply checked_fetch. apply checked_sent; cbn; auto.
    + apply checked_sent; cbn; auto.
  - (* CloseSnackbar *) apply checked_update; [exact Hw | reflexivity].
Qed.

Lemma checked_invariant_run (trace : list (Backend * App.Event))
      (w : World App.State) :
  checked_invariant w -> checked_invariant (App.run trace w).
Proof.
  revert w. induction trace as [|[b ev] rest IH]; intros w Hw; cbn.
  - exact Hw.
  - apply IH, checked_invariant_step, Hw.
Qed.

(** X7: whatever the user does and whatever the backend answers, the cab
    flow never posts a comparison with an empty pickup or dropoff address,
    never posts a route to track with a phone number that is not of E.164
    shape, never asks for the routes of a number that does not start with
    [+], and never asks for suggestions on an empty query. *)
Theorem cab_requests_checked
  (trace : list (Backend * App.Event)) (r : Request) :
  In r (requests (App.run trace App.start)) ->
  match r with
  | PostComparePrices body =>
      ComparePricesBody.pickup_address body <> ""
      /\ ComparePricesBody.dropoff_address body <> ""
  | PostTrackRoute body =>
      JS.matches (TrackRouteBody.phone_number body) App.phone_pattern = true
  | GetTrackedRoutes formattedNumber =>
      JS.startsWith formattedNumber "+" = true
  | GetCitiesAutocomplete query => query <> ""
  | DeleteTrackedRoute _ => True
  end.
Proof.
  intros Hin.
  destruct (checked_invariant_run trace App.start checked_invariant_start)
    as [Hall _].
  rewrite Forall_forall in Hall. specialize (Hall r Hin).
  destruct r; cbn in Hall; try exact Hall.
  rewrite phone_pattern_e164. exact Hall.
Qed.

Lemma cab_requests_checked_witness :
  let trace :=
    [(Examples.online, App.PhoneNumberInput "15551234567");
     (Examples.online, App.ClickToggleTrackedRoutes)] in
  In (GetTrackedRoutes "+15551234567") (requests (App.run trace App.start))
  /\ JS.startsWith "+15551234567" "+" = true.
Proof.
  cbv zeta.
  match goal with
  | |- In ?r (requests (App.run ?t _)) /\ _ =>
      assert (Hin : In r (requests (App.run t App.start)))
        by (vm_compute; tauto);
      pose proof (cab_requests_checked t r Hin) as H
  end.
  split; [exact Hin | exact H].
Defined.

(** X8: in every state the cab flow can reach, at most one of the two
    fields carries an error message: the form never reports pickup and
    dropoff together. *)
Theorem never_both_field_errors (trace : list (Backend * App.Event)) :
  let e := App.errors (state (App.run trace App.start)) in
  App.Errors.pickup e = None \/ App.Errors.dropoff e = None.
Proof.
  destruct (checked_invariant_run trace App.start checked_invariant_start)
    as [_ He].
  exact He.
Qed.

(** *** Decimal digits, written and read back *)

Lemma uint_digits (d : Decimal.uint) :
  Spec.all_digits (NilEmpty.string_of_uint d) = true.
Proof. induction d; cbn; auto. Qed.

Lemma digits_value_from_pos (d : Decimal.uint) (acc : positive) :
  JS.digits_value_from (Zpos acc) (NilEmpty.string_of_uint d)
  = Zpos (Pos.of_uint_acc d acc).
Proof.
  revert acc. induction d; intros acc; cbn -[Z.mul Z.add Pos.mul Pos.add];
    try reflexivity;
    match goal with
    | |- JS.digits_value_from (_ + JS.digit_value ?c) _
         = Zpos (Pos.of_uint_acc _ ?q) =>
        let k := eval vm_compute in (JS.digit_value c) in
        replace (10 * Zpos acc + JS.digit_value c) with (Zpos q)
          by (change (JS.digit_value c) with k; lia)
    end; apply IHd.
Qed.

Lemma digits_value_uint (d : Decimal.uint) :
  JS.digits_value (NilEmpty.string_of_uint d) = Z.of_N (Pos.of_uint d).
Proof.
  unfold JS.digits_value.
  induction d; cbn -[Z.mul Z.add Pos.mul Pos.add]; try reflexivity;
    try exact IHd;
    match goal with
    | |- JS.digits_value_from (_ + JS.digit_value ?c) _
         = Zpos (Pos.of_uint_acc _ ?q) =>
        let k := eval vm_compute in (JS.digit_value c) in
        replace (10 * 0 + JS.digit_value c) with (Zpos q)
          by (change (JS.digit_value c) with k; lia)
    end; apply digits_value_from_pos.
Qed.

Lemma digits_of_uint (n : Z) :
  0 <= n ->
  exists d, JS.digits_of n = NilEmpty.string_of_uint d
            /\ d <> Decimal.Nil /\ Z.of_N (Pos.of_uint d) = n.
Proof.
  intros Hn. unfold JS.digits_of.
  destruct n as [|p|p]; [| | lia].
  - exists (Decimal.D0 Decimal.Nil). repeat split. discriminate.
  - exists (Pos.to_uint p). cbn. split; [| split].
    + pose proof (DecimalPos.Unsigned.to_uint_nonnil p) as H.
      destruct (Pos.to_uint p); [congruence | reflexivity ..].
    + apply DecimalPos.Unsigned.to_uint_nonnil.
    + rewrite DecimalPos.Unsigned.of_to. reflexivity.
Qed.

(** The digits written for a non-negative integer are digits, at least one
    of them, and spell that integer. *)
Lemma digits_of_spec (n : Z) :
  0 <= n ->
  Spec.all_digits (JS.digits_of n) = true
  /\ JS.digits_of n <> ""
  /\ JS.digits_value (JS.digits_of n) = n.
Proof.
  intros Hn. destruct (digits_of_uint n Hn) as (d & -> & Hd & Hv).
  split; [apply uint_digits | split].
  - destruct d; cbn; congruence.
  - rewrite digits_value_uint. exact Hv.
Qed.





(** *** Durations read back *)








(** *** Prices with trailing text *)

Lemma append_assoc (a b c : string) : (a ++ b) ++ c = a ++ (b ++ c).
Proof. induction a as [|x a IH]; cbn; [reflexivity | now rewrite IH]. Qed.

Lemma exponent_part_none (c : ascii) (r : string) :
  ends_numeral c = true -> JS.exponent_part (String c r) = 0.
Proof.
  unfold ends_numeral. intros H.
  repeat (apply Bool.andb_true_iff in H; destruct H as [H ?]).
  cbn. destruct (Ascii.eqb c "e"); [discriminate|].
  destruct (Ascii.eqb c "E"); [discriminate|]. reflexivity.
Qed.

(** [parseFloat] reads the numeral at the front and ignores what follows
    it. *)
Lemma parseFloat_numeral_prefix
  (ip : string) (fp : option string) (c : ascii) (r : string) :
  ip <> "" ->
  Spec.all_digits ip = true ->
  match fp with Some f => Spec.all_digits f = true | None => True end ->
  ends_numeral c = true ->
  JS.parseFloat (Spec.numeral ip fp ++ String c r)
  = JS.round_decimal (Spec.numeral_digits ip fp) (Spec.numeral_scale fp).
Proof.
  intros Hne Hip Hfp Hc.
  pose proof (exponent_part_none c r Hc) as Hexp.
  unfold ends_numeral in Hc.
  repeat (apply Bool.andb_true_iff in Hc; destruct Hc as [Hc ?]).
  assert (Hcd : JS.is_digit c = false) by (destruct (JS.is_digit c); auto).
  assert (Hcp : Ascii.eqb c "." = false)
    by (destruct (Ascii.eqb c "."); auto; discriminate).
  destruct ip as [|a ip]; [congruence|]. clear Hne.
  pose proof Hip as Hip'. cbn in Hip'.
  apply Bool.andb_true_iff in Hip'. destruct Hip' as [Ha _].
  assert (Hshape : exists rest,
    Spec.numeral (String a ip) fp ++ String c r = String a rest).
  { destruct fp; cbn; eexists; reflexivity. }
  destruct Hshape as [rest Hrest].
  unfold JS.parseFloat. rewrite Hrest. cbn [JS.trim_start].
  rewrite (digit_not_white a Ha).
  unfold JS.strip_sign.
  rewrite (digit_not a "-" Ha eq_refl), (digit_not a "+" Ha eq_refl).
  change (1 <? 0) with false. cbv iota.
  unfold JS.unsigned_decimal.
  change (JS.startsWith (String a rest) "Infinity")
    with (Ascii.eqb a "I" && JS.startsWith rest "nfinity").
  rewrite (digit_not a "I" Ha eq_refl). cbn [andb].
  rewrite <- Hrest. clear rest Hrest.
  destruct fp as [f|]; unfold Spec.numeral, Spec.numeral_digits,
                         Spec.numeral_scale.
  - rewrite !append_assoc.
    rewrite (span_digits_app (String a ip) ("." ++ f ++ String c r) Hip
               eq_refl).
    change (JS.startsWith ("." ++ f ++ String c r) ".") with true.
    cbv iota.
    change (JS.drop 1 ("." ++ f ++ String c r)) with (f ++ String c r).
    rewrite (span_digits_app f (String c r) Hfp Hcd).
    cbn [JS.falsy andb]. rewrite Hexp. reflexivity.
  - rewrite (span_digits_app (String a ip) (String c r) Hip Hcd).
    change (JS.startsWith (String c r) ".")
      with (Ascii.eqb c "." && JS.startsWith r "").
    rewrite Hcp. cbn [andb JS.falsy]. rewrite Hexp.
    replace (String a ip ++ "") with (String a ip); [reflexivity|].
    clear. generalize (String a ip) as d.
    induction d as [|x d IH]; cbn; [reflexivity | now rewrite <- IH].
Qed.

(** X12: text after the numeral of a price is ignored, by the rate on the
    card and by the target that is tracked alike: for a price written as a
    dollar sign, a decimal numeral and then anything that starts with a
    character other than a digit, a point or an exponent mark, both read
    the numeral.  A range such as "$23-29" is read as its lower end. *)
Theorem price_trailing_text_ignored
  (c : App.State) (estimate : PriceEstimate.t)
  (ip : string) (fp : option string) (mark : ascii) (rest : string) :
  ip <> "" ->
  Spec.all_digits ip = true ->
  match fp with Some f => Spec.all_digits f = true | None => True end ->
  ends_numeral mark = true ->
  PriceEstimate.price_estimate estimate
    = "$" ++ Spec.numeral ip fp ++ String mark rest ->
  let value :=
    JS.round_decimal (Spec.numeral_digits ip fp) (Spec.numeral_scale fp) in
  TrackRouteBody.target_price (App.track_route_body c estimate) = value
  /\ App.rate_per_mile estimate
     = JS.div value (PriceEstimate.distance estimate).
Proof.
  intros Hne Hip Hfp Hmark Hprice value. split.
  - unfold App.track_route_body. cbn [TrackRouteBody.target_price].
    rewrite Hprice, replace_leading_dollar.
    apply parseFloat_numeral_prefix; assumption.
  - unfold App.rate_per_mile. rewrite Hprice.
    change (JS.slice1 ("$" ++ Spec.numeral ip fp ++ String mark rest))
      with (Spec.numeral ip fp ++ String mark rest).
    rewrite parseFloat_numeral_prefix by assumption. reflexivity.
Qed.

Lemma price_trailing_text_ignored_witness :
  let w := Examples.filled "Manhattan" "Brooklyn" "+15551234567" [] in
  TrackRouteBody.target_price
    (App.track_route_body (state w) Examples.uber_range) = JS.of_Z 23
  /\ App.rate_display Examples.uber_range = "4.60".
Proof.
  destruct (price_trailing_text_ignored
              (state (Examples.filled "Manhattan" "Brooklyn"
                        "+15551234567" []))
              Examples.uber_range "23" None "-" "29")
    as [Ht Hr]; try reflexivity.
  - discriminate.
  - split.
    + rewrite Ht. vm_compute. reflexivity.
    + unfold App.rate_display. rewrite Hr. vm_compute. reflexivity.
Defined.

(** *** Numbers shown with a fixed number of decimals *)

Lemma length_append (a b : string) :
  String.length (a ++ b) = (String.length a + String.length b)%nat.
Proof. induction a as [|x a IH]; cbn; [reflexivity | now rewrite IH]. Qed.

Lemma all_digits_append (a b : string) :
  Spec.all_digits a = true -> Spec.all_digits b = true ->
  Spec.all_digits (a ++ b) = true.
Proof.
  intros Ha Hb. induction a as [|x a IH]; cbn in *; [exact Hb|].
  apply Bool.andb_true_iff in Ha. destruct Ha as [Hx Ha].
  rewrite Hx, (IH Ha). reflexivity.
Qed.

Lemma zeros_spec (n : nat) :
  String.length (JS.zeros n) = n /\ Spec.all_digits (JS.zeros n) = true.
Proof.
  induction n as [|n [IH1 IH2]]; cbn; [split; reflexivity|].
  rewrite IH1, IH2. split; reflexivity.
Qed.

Lemma length_substring (a b : nat) (s : string) :
  (a + b <= String.length s)%nat -> String.length (substring a b s) = b.
Proof.
  revert a b. induction s as [|x s IH]; intros a b H; cbn in H.
  - assert (a = 0%nat) by lia. assert (b = 0%nat) by lia. subst.
    reflexivity.
  - destruct a as [|a]; cbn.
    + destruct b as [|b]; cbn; [reflexivity|].
      f_equal. apply (IH 0%nat b). cbn. lia.
    + apply IH. lia.
Qed.

Lemma all_digits_substring (a b : nat) (s : string) :
  Spec.all_digits s = true -> Spec.all_digits (substring a b s) = true.
Proof.
  revert a b. induction s as [|x s IH]; intros a b H; cbn in H.
  - destruct a, b; reflexivity.
  - apply Bool.andb_true_iff in H. destruct H as [Hx Hs].
    destruct a as [|a]; cbn.
    + destruct b as [|b]; cbn; [reflexivity|].
      rewrite Hx. apply (IH 0%nat b Hs).
    + apply IH, Hs.
Qed.

(** The text of a non-negative integer with [f + 1] decimals: digits, a
    point, and exactly [f + 1] digits. *)
Lemma fixed_digits_shape (n : Z) (f : nat) :
  0 <= n ->
  exists ip fr,
    JS.fixed_digits n (S f) = ip ++ "." ++ fr
    /\ ip <> "" /\ Spec.all_digits ip = true
    /\ String.length fr = S f /\ Spec.all_digits fr = true.
Proof.
  intros Hn. destruct (digits_of_spec n Hn) as (Hall & _ & _).
  unfold JS.fixed_digits.
  set (m := JS.digits_of n) in *.
  set (m1 := if (String.length m <=? S f)%nat
             then JS.zeros (S (S f) - String.length m) ++ m else m).
  assert (Hm1 : (S (S f) <= String.length m1)%nat
                /\ Spec.all_digits m1 = true).
  { subst m1. destruct (String.length m <=? S f)%nat eqn:E.
    - apply Nat.leb_le in E. split.
      + rewrite length_append, (proj1 (zeros_spec _)). lia.
      + apply all_digits_append; [apply zeros_spec | exact Hall].
    - apply Nat.leb_gt in E. split; [lia | exact Hall]. }
  destruct Hm1 as [Hlen Hd].
  exists (substring 0 (String.length m1 - S f) m1),
         (substring (String.length m1 - S f) (S f) m1).
  split; [reflexivity | split; [| split; [| split]]].
  - intros H. apply (f_equal String.length) in H.
    rewrite length_substring in H by lia. cbn in H. lia.
  - apply all_digits_substring, Hd.
  - apply length_substring. lia.
  - apply all_digits_substring, Hd.
Qed.

Lemma nearest_scaled_nonneg (m : positive) (e : Z) (f : nat) :
  0 <= JS.nearest_scaled m e f.
Proof.
  unfold JS.nearest_scaled.
  assert (H10 : 0 < 10 ^ Z.of_nat f) by (apply Z.pow_pos_nonneg; lia).
  destruct (0 <=? e) eqn:E.
  - apply Z.leb_le in E.
    assert (0 < 2 ^ e) by (apply Z.pow_pos_nonneg; lia). nia.
  - apply Z.leb_gt in E.
    assert (0 < 2 ^ (- e)) by (apply Z.pow_pos_nonneg; lia).
    apply Z.div_pos; nia.
Qed.

Lemma toFixed_shape (x : JS.number) (f : nat) :
  fixed_notation x = true ->
  exists ip fr,
    JS.toFixed x (S f) = sign_text x ++ ip ++ "." ++ fr
    /\ ip <> "" /\ Spec.all_digits ip = true
    /\ String.length fr = S f /\ Spec.all_digits fr = true.
Proof.
  intros Hx. destruct x as [s|s| |s m e]; cbn in Hx; try discriminate.
  - destruct (fixed_digits_shape 0 f) as (ip & fr & H & Hrest); [lia|].
    exists ip, fr. split; [exact H | exact Hrest].
  - apply Bool.negb_true_iff in Hx.
    destruct (fixed_digits_shape (JS.nearest_scaled m e (S f)) f
                (nearest_scaled_nonneg m e (S f)))
      as (ip & fr & H & Hrest).
    exists ip, fr. split; [| exact Hrest].
    unfold JS.toFixed. rewrite Hx, H. destruct s; reflexivity.
Qed.

(** X13: every Number the cards show in fixed notation (a zero, or a finite
    Number below 10^21 in magnitude) appears as a sign, at least one digit,
    a point and a fixed count of digits: two for the rate and for the
    target of a tracked route, one for the distance. *)
Theorem displays_fixed_decimals
  (estimate : PriceEstimate.t) (route : TrackedRoute.t) :
  (fixed_notation (App.rate_per_mile estimate) = true ->
   exists ip fr,
     App.rate_display estimate
     = sign_text (App.rate_per_mile estimate) ++ ip ++ "." ++ fr
     /\ ip <> "" /\ Spec.all_digits ip = true
     /\ String.length fr = 2%nat /\ Spec.all_digits fr = true)
  /\ (fixed_notation (TrackedRoute.target_price route) = true ->
      exists ip fr,
        App.target_price_display route
        = sign_text (TrackedRoute.target_price route) ++ ip ++ "." ++ fr
        /\ ip <> "" /\ Spec.all_digits ip = true
        /\ String.length fr = 2%nat /\ Spec.all_digits fr = true)
  /\ (fixed_notation (PriceEstimate.distance estimate) = true ->
      exists ip fr,
        App.distance_display estimate
        = sign_text (PriceEstimate.distance estimate) ++ ip ++ "." ++ fr
        /\ ip <> "" /\ Spec.all_digits ip = true
        /\ String.length fr = 1%nat /\ Spec.all_digits fr = true).
Proof.
  split; [| split]; intros H.
  - exact (toFixed_shape _ 1 H).
  - exact (toFixed_shape _ 1 H).
  - exact (toFixed_shape _ 0 H).
Qed.

Lemma displays_fixed_decimals_witness :
  exists ip fr,
    App.rate_display Examples.uber = ip ++ "." ++ fr
    /\ String.length fr = 2%nat.
Proof.
  destruct (displays_fixed_decimals Examples.uber Examples.commute)
    as (H & _).
  destruct (H eq_refl) as (ip & fr & Heq & _ & _ & Hlen & _).
  exists ip, fr. split; [exact Heq | exact Hlen].
Defined.

(** ** Further properties of the flight flow *)

(** X14: a flight search with the origin, the destination or the departure
    date missing sends nothing: the notice "Please fill in all required
    fields" is shown, and the estimates, the busy flag and the request logs
    are as before. *)
Theorem search_requires_fields
  (flights : FlightComparison.FlightBackend) (p : FlightComparison.Page) :
  let c := state (FlightComparison.world p) in
  FlightComparison.origin c = ""
  \/ FlightComparison.destination c = ""
  \/ FlightComparison.departureDate c = None ->
  let p' := FlightComparison.pfire (FlightComparison.handleSearch flights) p in
  let c' := state (FlightComparison.world p') in
  FlightComparison.searches p' = FlightComparison.searches p
  /\ requests (FlightComparison.world p')
     = requests (FlightComparison.world p)
  /\ FlightComparison.snackbar c' = FlightComparison.required_fields_notice
  /\ FlightComparison.estimates c' = FlightComparison.estimates c
  /\ FlightComparison.loading c' = FlightComparison.loading c.
Proof.
  cbv zeta. intros H.
  unfold FlightComparison.pfire, FlightComparison.handleSearch.
  destruct (FlightComparison.departureDate (state (FlightComparison.world p)))
    as [d|] eqn:Ed.
  - assert (Hf : JS.falsy (FlightComparison.origin
                             (state (FlightComparison.world p)))
                 || JS.falsy (FlightComparison.destination
                                (state (FlightComparison.world p))) = true).
    { destruct H as [H|[H|H]]; [| | discriminate]; rewrite H; cbn;
        [reflexivity | apply Bool.orb_true_r]. }
    rewrite Hf. cbn. split_all; reflexivity.
  - cbn. split_all; reflexivity.
Qed.

Lemma search_requires_fields_witness :
  let p := Examples.flight_filled "JFK" "" (Some 1767225600000)
             [Examples.red_eye] in
  let p' := FlightComparison.pfire
              (FlightComparison.handleSearch Examples.flights_up) p in
  FlightComparison.searches p' = []
  /\ FlightComparison.estimates (state (FlightComparison.world p'))
     = [Examples.red_eye].
Proof.
  pose proof (search_requires_fields Examples.flights_up
                (Examples.flight_filled "JFK" "" (Some 1767225600000)
                   [Examples.red_eye])) as H.
  cbv zeta in H.
  destruct H as (Hs & _ & _ & He & _); [right; left; reflexivity|].
  split; [exact Hs | exact He].
Defined.











(** *** The tracked-routes panel *)

(** X17: opening the tracked-routes panel fetches the list when a phone
    number is entered, with one request, and fetches nothing when the phone
    field is empty; closing the panel never fetches. *)
Theorem panel_toggle_refreshes (backend : Backend) (w : World App.State) :
  let p := App.phoneNumber (state w) in
  let w' := App.step backend App.ClickToggleTrackedRoutes w in
  App.showTrackedRoutes (state w') = negb (App.showTrackedRoutes (state w))
  /\ requests w'
     = if negb (App.showTrackedRoutes (state w)) && negb (JS.falsy p)
       then (requests w
               ++ [GetTrackedRoutes
                     (if JS.startsWith p "+" then p else "+" ++ p)])%list
       else requests w.
Proof.
  cbv zeta. unfold App.step.
  unfold fire, App.tracked_routes_effect, App.onToggleTrackedRoutes.
  cbn -[JS.startsWith].
  destruct (App.showTrackedRoutes (state w)); cbn -[JS.startsWith].
  - rewrite Bool.andb_false_r. cbn. split; reflexivity.
  - rewrite Bool.andb_true_r.
    unfold App.fetchTrackedRoutes. cbn -[JS.startsWith].
    destruct (JS.falsy (App.phoneNumber (state w))); cbn -[JS.startsWith];
      [split; reflexivity|].
    unfold bind, await. cbn -[JS.startsWith].
    destruct (tracked_routes backend _); cbn; split; reflexivity.
Qed.

(** X18: typing in the phone field while the tracked-routes panel is open
    fetches the list for what has been typed so far, valid or not, with a
    [+] put in front when it has none; while the panel is closed, or when
    the field is emptied, nothing is fetched. *)
Theorem phone_typing_refreshes
  (backend : Backend) (value : string) (w : World App.State) :
  value <> App.phoneNumber (state w) ->
  let w' := App.step backend (App.PhoneNumberInput value) w in
  App.phoneNumber (state w') = value
  /\ requests w'
     = if App.showTrackedRoutes (state w) && negb (JS.falsy value)
       then (requests w
               ++ [GetTrackedRoutes
                     (if JS.startsWith value "+" then value
                      else "+" ++ value)])%list
       else requests w.
Proof.
  intros Hne. cbv zeta. unfold App.step.
  destruct (String.eqb_spec value (App.phoneNumber (state w)));
    [congruence|].
  unfold fire, App.tracked_routes_effect, App.onPhoneNumberChange.
  cbn -[JS.startsWith].
  destruct (JS.falsy value) eqn:Ef; cbn -[JS.startsWith].
  - rewrite Bool.andb_false_r. split; reflexivity.
  - destruct (App.showTrackedRoutes (state w)); cbn -[JS.startsWith];
      [| split; reflexivity].
    unfold App.fetchTrackedRoutes. cbn -[JS.startsWith]. rewrite Ef.
    unfold bind, await. cbn -[JS.startsWith].
    destruct (tracked_routes backend _); cbn; split; reflexivity.
Qed.

Lemma phone_typing_refreshes_witness :
  let w := Examples.tracking "" [] in
  requests (App.step Examples.online (App.PhoneNumberInput "155") w)
  = [GetTrackedRoutes "+155"].
Proof.
  destruct (phone_typing_refreshes Examples.online "155"
              (Examples.tracking "" [])) as [_ H].
  - discriminate.
  - exact H.
Defined.

(** *** The phone pattern *)

(** X19: the pattern that guards route tracking accepts exactly the strings
    made of a [+], a digit from 1 to 9 and 10 to 14 more digits, nothing
    before and nothing after: 12 to 16 characters in all. *)
Theorem phone_pattern_language (p : string) :
  JS.matches p App.phone_pattern = true <->
  exists (d : ascii) (rest : string),
    p = String "+" (String d rest)
    /\ JS.in_range "1" "9" d = true
    /\ Spec.all_digits rest = true
    /\ (10 <= String.length rest <= 14)%nat
    /\ 12 <= JS.length p <= 16.
Proof.
  rewrite phone_pattern_e164. unfold Spec.e164_shape. split.
  - destruct p as [|a [|d rest]]; try discriminate.
    intros H.
    repeat (apply Bool.andb_true_iff in H; destruct H as [H ?]).
    destruct (Ascii.eqb_spec a "+") as [->|]; [| discriminate].
    exists d, rest.
    repeat match goal with
           | H : (_ <=? _)%nat = true |- _ => apply Nat.leb_le in H
           end.
    unfold JS.length. cbn [String.length].
    split_all; try assumption; try reflexivity; lia.
  - intros (d & rest & -> & Hd & Hr & [Hlo Hhi] & _).
    apply Nat.leb_le in Hlo. apply Nat.leb_le in Hhi.
    change (Ascii.eqb "+" "+" && JS.in_range "1" "9" d
            && Spec.all_digits rest
            && (10 <=? String.length rest)%nat
            && (String.length rest <=? 14)%nat = true).
    rewrite Hd, Hr, Hlo, Hhi. reflexivity.
Qed.

(** *** More of the passenger field *)

(** X20: the passenger-count field reads the whole number at the front of
    what is typed and drops the rest: a decimal point, an exponent or any
    other text after the digits does not count, so "2.5" stores 2.  (A zero
    followed by [x] is a hexadecimal prefix and is left out here.) *)
Theorem passenger_count_prefix
  (n : Z) (c : ascii) (rest : string) (w : World App.State) :
  0 <= n ->
  JS.is_digit c = false ->
  Ascii.eqb c "x" = false ->
  Ascii.eqb c "X" = false ->
  let typed := JS.digits_of n ++ String c rest in
  JS.parseInt typed = Some n
  /\ App.passengerCount
       (state (fire (App.onPassengerCountChange typed) w))
     = Z.max 1 (Z.min 7 n).
Proof.
  intros Hn Hc Hx HX typed.
  destruct (digits_of_spec n Hn) as (Hall & Hne & Hval).
  assert (Hparse : JS.parseInt typed = Some n).
  { subst typed.
    destruct (JS.digits_of n) as [|a s] eqn:E; [congruence|].
    pose proof Hall as Ha. cbn in Ha.
    apply Bool.andb_true_iff in Ha. destruct Ha as [Ha Hs].
    unfold JS.parseInt.
    change (String a s ++ String c rest) with (String a (s ++ String c rest)).
    cbn [JS.trim_start]. rewrite (digit_not_white a Ha).
    unfold JS.strip_sign.
    rewrite (digit_not a "-" Ha eq_refl), (digit_not a "+" Ha eq_refl).
    assert (Hhex :
      JS.startsWith (String a (s ++ String c rest)) "0x" = false
      /\ JS.startsWith (String a (s ++ String c rest)) "0X" = false).
    { destruct s as [|b s]; cbn.
      - rewrite Hx, HX, !Bool.andb_false_r. split; reflexivity.
      - cbn in Hs. apply Bool.andb_true_iff in Hs. destruct Hs as [Hb _].
        rewrite (digit_not b "x" Hb eq_refl), (digit_not b "X" Hb eq_refl).
        rewrite !Bool.andb_false_r. split; reflexivity. }
    destruct Hhex as [-> ->]. cbn [orb].
    change (String a (s ++ String c rest)) with (String a s ++ String c rest).
    rewrite (span_digits_app (String a s) (String c rest) Hall Hc).
    cbn [JS.falsy]. rewrite Hval. f_equal. lia. }
  split; [exact Hparse|].
  cbn. rewrite Hparse. cbn. destruct (n =? 0) eqn:E; lia.
Qed.

Lemma passenger_count_prefix_witness :
  App.passengerCount
    (state (fire (App.onPassengerCountChange "2.5") App.start)) = 2.
Proof.
  assert (H0 : 0 <= 2) by lia.
  destruct (passenger_count_prefix 2 "." "5" App.start H0 eq_refl eq_refl
              eq_refl) as [_ H].
  exact H.
Defined.

(** *** Suggestions in the cab flow *)

(** X21: in the cab flow the two fields keep separate option lists: a
    successful suggestion answer for the pickup field replaces the pickup
    options and leaves the dropoff options alone, and the other way
    round. *)
Theorem cab_options_separate
  (backend : Backend) (query : string) (data : list string)
  (w : World App.State) :
  query <> "" ->
  cities_autocomplete backend query = Resolved data ->
  (let w' := fire (App.onPickupInputChange backend query) w in
   App.pickup (state w') = query
   /\ App.pickupOptions (state w') = data
   /\ App.dropoffOptions (state w') = App.dropoffOptions (state w))
  /\ (let w' := fire (App.onDropoffInputChange backend query) w in
      App.dropoff (state w') = query
      /\ App.dropoffOptions (state w') = data
      /\ App.pickupOptions (state w') = App.pickupOptions (state w)).
Proof.
  intros Hq Hok.
  assert (Hlen : (1 <=? JS.length query) = true).
  { destruct query; [congruence|]. unfold JS.length. cbn [String.length].
    apply Z.leb_le. lia. }
  split; cbv zeta;
    unfold fire, App.onPickupInputChange, App.onDropoffInputChange,
      bind, await; cbn; rewrite Hlen, Hok; cbn; split_all; reflexivity.
Qed.

Lemma cab_options_separate_witness :
  let w' := fire (App.onPickupInputChange Examples.online "Man")
                 App.start in
  App.pickupOptions (state w') = ["Manhattan"; "Brooklyn"]
  /\ App.dropoffOptions (state w') = [].
Proof.
  destruct (cab_options_separate Examples.online "Man"
              ["Manhattan"; "Brooklyn"] App.start)
    as ((_ & H1 & H2) & _).
  - discriminate.
  - reflexivity.
  - split; [exact H1 | exact H2].
Defined.
